(** * libbtrfsutil Python binding: argument converters and module table

    A shallow embedding of [libbtrfsutil/python/module.c]: the descriptor
    converter [fd_converter], the path converter [path_converter] with
    [path_cleanup], the method table [btrfsutil_methods] and the module
    initialiser [PyInit_btrfsutil].

    Host objects are an inductive type; a C function that either returns a
    value or returns 0/NULL with the interpreter's error indicator set is a
    computation in a small trace-and-error monad.  Reference counting is not
    modelled. *)

From Stdlib Require Import ZArith List String Ascii Bool Lia.
From Stdlib Require Import Strings.Byte.
Import ListNotations.
Open Scope Z_scope.

Set Implicit Arguments.

(** ** Bytes, text and C strings *)

Definition bytes := list byte.
Definition unicode := list N.

Definition is_nul (c : byte) : bool := Byte.eqb c x00.

(** [strlen] on the buffer of a bytes object: the contents are followed by
    one terminator, so the scan stops at the first zero byte of the contents
    or at their end. *)
Fixpoint strlen (s : bytes) : nat :=
  match s with
  | [] => O
  | c :: s' => if is_nul c then O else S (strlen s')
  end.

Definition bytes_of_string (s : string) : bytes := list_byte_of_string s.

Definition unicode_of_string (s : string) : unicode :=
  map N_of_ascii (list_ascii_of_string s).

(** Substring test, used to read the messages of errors. *)
Fixpoint contains (needle hay : string) : bool :=
  if String.prefix needle hay then true
  else match hay with
       | EmptyString => false
       | String _ hay' => contains needle hay'
       end.

(** ** Machine integers *)

Definition INT_MAX : Z := 2147483647.
Definition INT_MIN : Z := -2147483648.

(** Conversion of a [long] to [int] as the assignment [*fd = tmp] does it. *)
Definition int_of_long (v : Z) : Z := (v - INT_MIN) mod 2 ^ 32 + INT_MIN.

(** ** Types and exceptions of the host *)

Inductive PyType : Type :=
| PyBaseObject_Type
| PyExc_BaseException
| PyExc_Exception
| PyExc_TypeError
| PyExc_ValueError
| PyExc_ArithmeticError
| PyExc_OverflowError
| PyExc_OSError
| PyExc_UnicodeError
| PyExc_UnicodeEncodeError
| BtrfsUtilError_type
| QgroupInherit_type
| PyUser_Type (name : string).

Definition PyType_eq_dec (a b : PyType) : {a = b} + {a <> b}.
Proof. decide equality. apply string_dec. Defined.

Definition PyType_eqb (a b : PyType) : bool :=
  if PyType_eq_dec a b then true else false.

(** The three control operations of the binding. *)
Inductive Operation : Type := ForceSync | StartSync | WaitSync.

(** Modelled from the spec: the error object of a failed control request
    (error.c is missing); section 3 gives it as
    [{ operation, path (optional), system_error_code }]. *)
Module ControlError.
Record t : Type := make {
  operation : Operation;
  path : option bytes;
  system_error_code : Z
}.
End ControlError.

Inductive PyErr : Type :=
| PyErr_String (t : PyType) (msg : string)
| PyErr_BtrfsUtil (c : ControlError.t).

Definition exc_type (e : PyErr) : PyType :=
  match e with
  | PyErr_String t _ => t
  | PyErr_BtrfsUtil _ => BtrfsUtilError_type
  end.

Inductive PyResult (A : Type) : Type :=
| Ok (a : A)
| Err (e : PyErr).
Arguments Ok {A} a.
Arguments Err {A} e.

(** ** Host objects

    [PyLong], [PyBytes] and [PyUnicode] are values of exactly the types int,
    bytes and str.  [PyBytesSub] and [PyUnicodeSub] are instances of a
    subclass of bytes or of str; like any class they may define [__index__]
    and [__fspath__].  [PyInstance] is an object of any other type.  The
    [nb_index] slot, when present, holds what [__index__] gives when called;
    the [__fspath__] attribute, when present, holds what the call gives. *)
#[warnings="-register-all"]
Inductive PyObject : Type :=
| PyLong (v : Z)
| PyBytes (b : bytes)
| PyUnicode (u : unicode)
| PyInstance (tp_name : string)
             (nb_index : option (PyResult Z))
             (fspath : option (PyResult PyObject))
| PyBytesSub (tp_name : string) (b : bytes)
             (nb_index : option (PyResult Z))
             (fspath : option (PyResult PyObject))
| PyUnicodeSub (tp_name : string) (u : unicode)
               (nb_index : option (PyResult Z))
               (fspath : option (PyResult PyObject)).

Definition Py_TYPE_tp_name (o : PyObject) : string :=
  match o with
  | PyLong _ => "int"
  | PyBytes _ => "bytes"
  | PyUnicode _ => "str"
  | PyInstance n _ _ => n
  | PyBytesSub n _ _ _ => n
  | PyUnicodeSub n _ _ _ => n
  end.

Definition PyIndex_Check (o : PyObject) : bool :=
  match o with
  | PyLong _ => true
  | PyInstance _ (Some _) _ => true
  | PyBytesSub _ _ (Some _) _ => true
  | PyUnicodeSub _ _ (Some _) _ => true
  | _ => false
  end.

(** [PyBytes_Check] and [PyUnicode_Check] are subclass tests. *)
Definition PyBytes_Check (o : PyObject) : bool :=
  match o with PyBytes _ | PyBytesSub _ _ _ _ => true | _ => false end.

Definition PyUnicode_Check (o : PyObject) : bool :=
  match o with PyUnicode _ | PyUnicodeSub _ _ _ _ => true | _ => false end.

(** [_PyObject_LookupSpecial(o, &PyId___fspath__)]: NULL when the type has no
    such attribute; otherwise the bound method, given here by the outcome of
    calling it. *)
Definition _PyObject_LookupSpecial___fspath__ (o : PyObject)
  : option (PyResult PyObject) :=
  match o with
  | PyInstance _ _ f => f
  | PyBytesSub _ _ _ f => f
  | PyUnicodeSub _ _ _ f => f
  | _ => None
  end.

Definition PyBytes_AS_STRING (o : PyObject) : bytes :=
  match o with PyBytes b | PyBytesSub _ b _ _ => b | _ => [] end.


Definition PyBytes_GET_SIZE (o : PyObject) : Z :=
  Z.of_nat (List.length (PyBytes_AS_STRING o)).

(** [PyUnicode_FSConverter] as the host defines it, for the codec [encode]
    of the filesystem encoding: text is encoded, bytes are taken as they
    are, and a result that holds a zero byte is refused with a ValueError.
    (The host also takes other path-like values; [path_converter] hands it
    text only.) *)
Definition FSConverter (encode : unicode -> PyResult bytes) (o : PyObject)
  : PyResult bytes :=
  let checked (b : bytes) :=
      if existsb is_nul b then
        Err (PyErr_String PyExc_ValueError "embedded null byte")
      else Ok b in
  match o with
  | PyUnicode u | PyUnicodeSub _ u _ _ =>
    match encode u with
    | Ok b => checked b
    | Err e => Err e
    end
  | PyBytes b | PyBytesSub _ b _ _ => checked b
  | _ => Err (PyErr_String PyExc_TypeError
                "expected str, bytes or os.PathLike object")
  end.

(** ** Targets of a control request and observable events *)

Inductive Target : Type :=
| TextualPath (p : bytes)
| OpenDescriptor (fd : Z).

Inductive Event : Type :=
| EvFspath (tp_name : string)          (* the __fspath__ hook is called *)
| EvAsLong (tp_name : string)          (* integer interpretation of the value *)
| EvFSConverter                        (* text-to-bytes conversion *)
| EvControl (op : Operation) (t : Target) (transid : Z).  (* system interaction *)

Definition is_system_event (e : Event) : bool :=
  match e with EvControl _ _ _ => true | _ => false end.

(** ** Trace-and-error monad *)

Definition M (A : Type) : Type := (list Event * PyResult A)%type.

Definition ret {A} (a : A) : M A := ([], Ok a).
Definition raise {A} (e : PyErr) : M A := ([], Err e).
Definition tell (ev : Event) : M unit := ([ev], Ok tt).
Definition lift {A} (r : PyResult A) : M A := ([], r).

Definition bind {A B} (m : M A) (k : A -> M B) : M B :=
  match m with
  | (t, Ok a) => let (t', r) := k a in (t ++ t', r)
  | (t, Err e) => (t, Err e)
  end.

Arguments bind : simpl never.
Arguments ret : simpl never.
Arguments tell : simpl never.

Notation "x <- m ;; k" := (bind m (fun x => k))
  (at level 61, m at next level, right associativity).
Notation "m ;;; k" := (bind m (fun _ => k))
  (at level 61, right associativity).

Definition trace {A} (m : M A) : list Event := fst m.
Definition result {A} (m : M A) : PyResult A := snd m.

Definition PyErr_SetString {A} (t : PyType) (msg : string) : M A :=
  raise (PyErr_String t msg).

(** ** struct path_arg (btrfsutilpy.h) *)
Module PathArg.
Record t : Type := make {
  allow_fd : bool;
  path : option bytes;       (* char *path; None is NULL *)
  fd : Z;
  length : Z;
  object : option PyObject;
  cleanup : option PyObject
}.
End PathArg.
Abbreviation path_arg := PathArg.t.

Definition Py_CLEANUP_SUPPORTED : Z := 131072.

(** [path_cleanup]: Py_CLEAR on both object fields. *)
Definition path_cleanup (p : path_arg) : path_arg :=
  PathArg.make (PathArg.allow_fd p) (PathArg.path p) (PathArg.fd p)
               (PathArg.length p) None None.

Section Converters.

(** Width of the platform's [long]; [int] is 32 bits wide. *)
Variable LONG_MAX : Z.
Definition LONG_MIN : Z := - LONG_MAX - 1.

(** The host's [PyUnicode_FSConverter]: encodes a text object under the
    filesystem encoding, giving the bytes of a new bytes object, or fails. *)
Variable PyUnicode_FSConverter : PyObject -> PyResult bytes.

(** The value and the overflow flag that [PyLong_AsLongAndOverflow] gives
    for the integer [v]. *)
Definition long_and_overflow (v : Z) : Z * Z :=
  if v >? LONG_MAX then (-1, 1)
  else if v <? LONG_MIN then (-1, -1)
  else (v, 0).

(** [PyLong_AsLongAndOverflow]: the value and the overflow flag, or an
    error raised while obtaining the integer; a value that is not a host
    integer gives its integer through the [nb_index] slot. *)
Definition PyLong_AsLongAndOverflow (o : PyObject) : M (Z * Z) :=
  match o with
  | PyLong v => ret (long_and_overflow v)
  | PyInstance _ (Some r) _
  | PyBytesSub _ _ (Some r) _
  | PyUnicodeSub _ _ (Some r) _ => v <- lift r ;; ret (long_and_overflow v)
  | _ => PyErr_SetString PyExc_TypeError "an integer is required"
  end.

Definition fd_converter (o : PyObject) : M Z :=
  tell (EvAsLong (Py_TYPE_tp_name o)) ;;;
  r <- PyLong_AsLongAndOverflow o ;;
  let '(tmp, overflow) := r in
  if (overflow >? 0) || (tmp >? INT_MAX) then
    PyErr_SetString PyExc_OverflowError "fd is greater than maximum"
  else if (overflow <? 0) || (tmp <? 0) then
    PyErr_SetString PyExc_ValueError "fd is negative"
  else ret (int_of_long tmp).

(** The shapes named by the type error of [path_converter]. *)
Definition accepted_shapes (allow_fd : bool) : string :=
  if allow_fd then "string, bytes, os.PathLike, or integer"
  else "string, bytes, or os.PathLike".

Definition err_format {A} (p : path_arg) (o : PyObject) : M A :=
  PyErr_SetString PyExc_TypeError
    ("expected " ++ accepted_shapes (PathArg.allow_fd p) ++ ", not "
       ++ Py_TYPE_tp_name o)%string.

(** Lines 102-120 of module.c: the terminator scan on the bytes object
    [bytes_o], which is [o] itself or the converter's new object. *)
Definition finish_path (p : path_arg) (o bytes_o : PyObject)
           (same : bool) : M (Z * path_arg) :=
  let length := PyBytes_GET_SIZE bytes_o in
  let tmp := PyBytes_AS_STRING bytes_o in
  if negb (length =? Z.of_nat (strlen tmp)) then
    PyErr_SetString PyExc_TypeError "path has embedded nul character"
  else
    ret (Py_CLEANUP_SUPPORTED,
         PathArg.make (PathArg.allow_fd p) (Some tmp) (-1) length (Some o)
                      (if same then None else Some bytes_o)).

Definition path_converter (o : option PyObject) (p : path_arg)
  : M (Z * path_arg) :=
  match o with
  | None => ret (1, path_cleanup p)
  | Some o =>
    let is_index := PathArg.allow_fd p && PyIndex_Check o in
    let is_bytes := PyBytes_Check o in
    let is_unicode := PyUnicode_Check o in
    st <- (if negb is_index && negb is_bytes && negb is_unicode then
             match _PyObject_LookupSpecial___fspath__ o with
             | None => err_format p o
             | Some call =>
               tell (EvFspath (Py_TYPE_tp_name o)) ;;;
               o' <- lift call ;;
               ret (o', PyBytes_Check o', PyUnicode_Check o')
             end
           else ret (o, is_bytes, is_unicode)) ;;
    let '(o, is_bytes, is_unicode) := st in
    if is_unicode then
      tell EvFSConverter ;;;
      b <- lift (PyUnicode_FSConverter o) ;;
      finish_path p o (PyBytes b) false
    else if is_bytes then
      finish_path p o o true
    else if is_index then
      fd <- fd_converter o ;;
      ret (Py_CLEANUP_SUPPORTED,
           PathArg.make (PathArg.allow_fd p) None fd 0 (Some o) None)
    else err_format p o
  end.

End Converters.

(** ** The method table and the module definition *)

Definition METH_VARARGS : Z := 1.
Definition METH_KEYWORDS : Z := 2.

Definition nl : string := String (ascii_of_nat 10) EmptyString.

Record PyMethodDef : Type := {
  ml_name : string;
  ml_meth : Operation;        (* filesystem_sync, start_sync, wait_sync *)
  ml_flags : Z;
  ml_doc : string
}.

Definition path_doc : string :=
  "path -- string, bytes, path-like object, or open file descriptor".

Definition btrfsutil_methods : list PyMethodDef :=
  [ {| ml_name := "sync"; ml_meth := ForceSync;
       ml_flags := Z.lor METH_VARARGS METH_KEYWORDS;
       ml_doc := "sync(path)" ++ nl ++ nl ++
                 "Sync a specific Btrfs filesystem." ++ nl ++ nl ++
                 "Arguments:" ++ nl ++
                 path_doc |};
    {| ml_name := "start_sync"; ml_meth := StartSync;
       ml_flags := Z.lor METH_VARARGS METH_KEYWORDS;
       ml_doc := "start_sync(path) -> int" ++ nl ++ nl ++
                 "Start a sync on a specific Btrfs filesystem and return the" ++ nl ++
                 "transaction ID." ++ nl ++ nl ++
                 "Arguments:" ++ nl ++
                 path_doc |};
    {| ml_name := "wait_sync"; ml_meth := WaitSync;
       ml_flags := Z.lor METH_VARARGS METH_KEYWORDS;
       ml_doc := "wait_sync(path, transid=0)" ++ nl ++ nl ++
                 "Wait for a transaction to sync." ++ nl ++
                 "Arguments:" ++ nl ++
                 path_doc ++ nl ++
                 "transid -- int transaction ID to wait for, or zero for the current" ++ nl ++
                 "transaction" |} ]%string.

Record PyModuleDef : Type := {
  m_name : string;
  m_doc : string;
  m_size : Z;
  m_methods : list PyMethodDef
}.

Definition btrfsutilmodule : PyModuleDef :=
  {| m_name := "btrfsutil";
     m_doc := "Library for managing Btrfs filesystems";
     m_size := -1;
     m_methods := btrfsutil_methods |}.

(** ** Type objects and module initialisation *)

Inductive newfunc : Type :=
| PyType_GenericNew
| newfunc_static (name : string).

Record PyTypeObject : Type := {
  tp_name : string;
  tp_base : option PyType;      (* None is NULL *)
  tp_new : option newfunc
}.

(** The two type objects defined by error.c and qgroup.c, as they stand when
    the initialiser starts. *)
Record Statics : Type := {
  BtrfsUtilError_type_object : PyTypeObject;
  QgroupInherit_type_object : PyTypeObject
}.

(** What a name of the module's dictionary is bound to. *)
Inductive ModuleAttr : Type :=
| AttrStr (s : string)
| AttrNone
| AttrFunction (m : PyMethodDef)
| AttrType (t : PyType).

Record PyModule : Type := {
  md_def : PyModuleDef;
  md_dict : list (string * ModuleAttr)
}.

(** The dictionary as an association list in insertion order: setting a
    name that is bound replaces its value in place. *)
Fixpoint dict_set (d : list (string * ModuleAttr)) (k : string)
         (v : ModuleAttr) : list (string * ModuleAttr) :=
  match d with
  | [] => [(k, v)]
  | (k', v') :: d' =>
    if String.eqb k' k then (k, v) :: d' else (k', v') :: dict_set d' k v
  end.

Fixpoint dict_get (d : list (string * ModuleAttr)) (k : string)
  : option ModuleAttr :=
  match d with
  | [] => None
  | (k', v') :: d' => if String.eqb k' k then Some v' else dict_get d' k
  end.

(** The dictionary of a module that [PyModule_Create] has just built: the
    names every new module has, then one function for each entry of the
    method table. *)
Definition module_new_dict (d : PyModuleDef) : list (string * ModuleAttr) :=
  [ ("__name__", AttrStr (m_name d));
    ("__doc__", AttrStr (m_doc d));
    ("__package__", AttrNone);
    ("__loader__", AttrNone);
    ("__spec__", AttrNone) ]%string
  ++ map (fun m => (ml_name m, AttrFunction m)) (m_methods d).

(** [PyType_Ready]: a NULL base becomes the base object type, a base the
    caller has set is kept; [ok] tells whether the host could finish. *)
Definition PyType_Ready (ok : bool) (t : PyTypeObject) : option PyTypeObject :=
  if ok then
    Some {| tp_name := tp_name t;
            tp_base := match tp_base t with
                       | None => Some PyBaseObject_Type
                       | Some b => Some b
                       end;
            tp_new := tp_new t |}
  else None.

(** [PyModule_AddObject]: 0 and the name bound, or -1 and the module as it
    was; [ok] tells whether the host could bind the name. *)
Definition PyModule_AddObject (ok : bool) (m : PyModule) (name : string)
           (t : PyType) : Z * PyModule :=
  if ok then
    (0, {| md_def := md_def m;
           md_dict := dict_set (md_dict m) name (AttrType t) |})
  else (-1, m).

Section ModuleInit.

(** Outcomes of the host's allocations, and the generated constants. *)
Variable type_ready_ok : PyTypeObject -> bool.
Variable module_create_ok : bool.
Variable add_object_ok : string -> bool.
Variable add_module_constants : PyModule -> PyModule.

Definition PyModule_Create (d : PyModuleDef) : option PyModule :=
  if module_create_ok then
    Some {| md_def := d; md_dict := module_new_dict d |}
  else None.

Definition PyInit_btrfsutil (s : Statics) : option (PyModule * Statics) :=
  let e := BtrfsUtilError_type_object s in
  let e := {| tp_name := tp_name e; tp_base := Some PyExc_OSError;
              tp_new := tp_new e |} in
  match PyType_Ready (type_ready_ok e) e with
  | None => None
  | Some e =>
    let q := QgroupInherit_type_object s in
    let q := {| tp_name := tp_name q; tp_base := tp_base q;
                tp_new := Some PyType_GenericNew |} in
    match PyType_Ready (type_ready_ok q) q with
    | None => None
    | Some q =>
      match PyModule_Create btrfsutilmodule with
      | None => None
      | Some m =>
        (* the value PyModule_AddObject returns is not looked at *)
        let m := snd (PyModule_AddObject (add_object_ok "BtrfsUtilError") m
                        "BtrfsUtilError" BtrfsUtilError_type) in
        let m := snd (PyModule_AddObject (add_object_ok "QgroupInherit") m
                        "QgroupInherit" QgroupInherit_type) in
        Some (add_module_constants m,
              {| BtrfsUtilError_type_object := e;
                 QgroupInherit_type_object := q |})
      end
    end
  end.

End ModuleInit.

(** Base of each type: fixed for the host's own types, read from the type
    object for the two types of this module. *)
Definition builtin_base (t : PyType) : option PyType :=
  match t with
  | PyBaseObject_Type => None
  | PyExc_BaseException => Some PyBaseObject_Type
  | PyExc_Exception => Some PyExc_BaseException
  | PyExc_TypeError => Some PyExc_Exception
  | PyExc_ValueError => Some PyExc_Exception
  | PyExc_ArithmeticError => Some PyExc_Exception
  | PyExc_OverflowError => Some PyExc_ArithmeticError
  | PyExc_OSError => Some PyExc_Exception
  | PyExc_UnicodeError => Some PyExc_ValueError
  | PyExc_UnicodeEncodeError => Some PyExc_UnicodeError
  | PyUser_Type _ => Some PyExc_Exception
  | BtrfsUtilError_type | QgroupInherit_type => None
  end.

Definition type_base (s : Statics) (t : PyType) : option PyType :=
  match t with
  | BtrfsUtilError_type => tp_base (BtrfsUtilError_type_object s)
  | QgroupInherit_type => tp_base (QgroupInherit_type_object s)
  | _ => builtin_base t
  end.

(** [PyType_IsSubtype] by walking the chain of bases. *)
Fixpoint IsSubtype_walk (base : PyType -> option PyType) (fuel : nat)
         (a b : PyType) : bool :=
  PyType_eqb a b ||
  match fuel with
  | O => false
  | S fuel' =>
    match base a with
    | None => false
    | Some a' => IsSubtype_walk base fuel' a' b
    end
  end.

Definition PyType_IsSubtype (base : PyType -> option PyType) (a b : PyType)
  : bool := IsSubtype_walk base 8 a b.

(** ** The control operations

    filesystem.c, which holds [filesystem_sync], [start_sync] and
    [wait_sync], is not part of the sources at hand; what follows is their
    contract. *)

(** A [struct path_arg] initialised as [{.allow_fd = ...}]. *)
Definition zero_path_arg (allow_fd : bool) : path_arg :=
  PathArg.make allow_fd None 0 0 None None.

Section ControlOperations.

Variable LONG_MAX : Z.
Variable PyUnicode_FSConverter : PyObject -> PyResult bytes.

(** The filesystem's answer to a control request: a system error code, or
    the value of the request (the transaction identifier for [StartSync]). *)
Variable control_request : Operation -> Target -> Z -> Z + Z.

(** Modelled from the spec: section 4.1, the fixed per-operation policy on
    descriptors.  The [allow_fd] initialisers of the three call sites
    (filesystem.c) are missing, so the table is left open. *)
Variable allow_descriptor : Operation -> bool.

(** Modelled from the spec: section 4.1, [resolve(target, allow_descriptor)],
    run on a zero-initialised [struct path_arg] with the flag set. *)
Definition resolve (allow_fd : bool) (target : PyObject) : M path_arg :=
  r <- path_converter LONG_MAX PyUnicode_FSConverter (Some target)
         (zero_path_arg allow_fd) ;;
  ret (snd r).

(** The target a resolved handle stands for: the path when one is set,
    the descriptor otherwise. *)
Definition target_of (p : path_arg) : Target :=
  match PathArg.path p with
  | Some b => TextualPath b
  | None => OpenDescriptor (PathArg.fd p)
  end.

(** Modelled from the spec: sections 4.2 and 4.3: the request is issued on
    the resolved handle; a failure is a Control Error with the operation, the
    path if the target was one, and the system error code. *)
Definition control (op : Operation) (p : path_arg) (transid : Z) : M Z :=
  tell (EvControl op (target_of p) transid) ;;;
  match control_request op (target_of p) transid with
  | inl code =>
    raise (PyErr_BtrfsUtil (ControlError.make op (PathArg.path p) code))
  | inr v => ret v
  end.

(** Modelled from the spec: section 4.2, ForceSync(target). *)
Definition filesystem_sync (target : PyObject) : M unit :=
  p <- resolve (allow_descriptor ForceSync) target ;;
  control ForceSync p 0 ;;;
  ret tt.

(** Modelled from the spec: section 4.2, StartSync(target). *)
Definition start_sync (target : PyObject) : M Z :=
  p <- resolve (allow_descriptor StartSync) target ;;
  control StartSync p 0.

(** Modelled from the spec: section 4.2, WaitSync(target, transaction_id = 0):
    a negative identifier is rejected before anything else is done, zero
    stands for the current transaction. *)
Definition wait_sync (target : PyObject) (transaction_id : option Z) : M unit :=
  let transid := match transaction_id with Some t => t | None => 0 end in
  if transid <? 0 then
    PyErr_SetString PyExc_ValueError "transid is negative"
  else
    p <- resolve (allow_descriptor WaitSync) target ;;
    control WaitSync p transid ;;;
    ret tt.

End ControlOperations.

(** ** A concrete platform for examples: LP64, ASCII filesystem encoding *)

Definition LP64_LONG_MAX : Z := 9223372036854775807.

Fixpoint ascii_encode (u : unicode) : PyResult bytes :=
  match u with
  | [] => Ok []
  | c :: u' =>
    if (c =? 0)%N then
      Err (PyErr_String PyExc_ValueError "embedded null byte")
    else if (c <? 128)%N then
      match ascii_encode u' with
      | Ok b => Ok (byte_of_ascii (ascii_of_N c) :: b)
      | Err e => Err e
      end
    else Err (PyErr_String PyExc_UnicodeEncodeError
                "'ascii' codec can't encode character")
  end.

Definition ascii_FSConverter (o : PyObject) : PyResult bytes :=
  match o with
  | PyUnicode u | PyUnicodeSub _ u _ _ => ascii_encode u
  | PyBytes b | PyBytesSub _ b _ _ => Ok b
  | _ => Err (PyErr_String PyExc_TypeError "expected str, bytes or os.PathLike object")
  end.

(** The ASCII codec alone: every code point below 128 becomes its byte,
    the code point 0 included. *)
Fixpoint ascii_codec (u : unicode) : PyResult bytes :=
  match u with
  | [] => Ok []
  | c :: u' =>
    if (c <? 128)%N then
      match ascii_codec u' with
      | Ok b => Ok (byte_of_ascii (ascii_of_N c) :: b)
      | Err e => Err e
      end
    else Err (PyErr_String PyExc_UnicodeEncodeError
                "'ascii' codec can't encode character")
  end.

(** A filesystem on which descriptor 3 and "/mnt/test" are mounted targets
    and transaction 7 is the open one. *)
Definition example_kernel (op : Operation) (t : Target) (transid : Z) : Z + Z :=
  let mounted := match t with
                 | OpenDescriptor fd => fd =? 3
                 | TextualPath p =>
                   if list_eq_dec byte_eq_dec p (bytes_of_string "/mnt/test")
                   then true else false
                 end in
  if mounted then
    match op with
    | StartSync => inr 7
    | _ => inr 0
    end
  else inl (match t with OpenDescriptor _ => 9 | TextualPath _ => 2 end).


(** The two type objects before initialisation, with no base set. *)
Definition initial_statics : Statics :=
  {| BtrfsUtilError_type_object :=
       {| tp_name := "btrfsutil.BtrfsUtilError"; tp_base := None;
          tp_new := Some (newfunc_static "BtrfsUtilError_new") |};
     QgroupInherit_type_object :=
       {| tp_name := "btrfsutil.QgroupInherit"; tp_base := None;
          tp_new := None |} |}.

(** ** Vocabulary of the properties *)

(** The shapes a call accepts: text, bytes, a value with the [__fspath__]
    hook, and, when descriptors are allowed, a value with an integer
    interpretation. *)
Definition has_fspath (o : PyObject) : bool :=
  match _PyObject_LookupSpecial___fspath__ o with
  | Some _ => true
  | None => false
  end.

Definition accepted_shape (allow_fd : bool) (o : PyObject) : bool :=
  PyUnicode_Check o || PyBytes_Check o || has_fspath o
  || (allow_fd && PyIndex_Check o).

(** The byte sequence of a textual or byte path, after the text-to-bytes
    conversion for text. *)
Definition path_bytes (conv : PyObject -> PyResult bytes) (o : PyObject)
  : option bytes :=
  match o with
  | PyBytes b | PyBytesSub _ b _ _ => Some b
  | PyUnicode _ | PyUnicodeSub _ _ _ _ =>
    match conv o with Ok b => Some b | Err _ => None end
  | _ => None
  end.

(** The byte sequence of a textual or byte path under the codec [encode],
    before the host's converter has looked at it. *)
Definition encoded_path_bytes (encode : unicode -> PyResult bytes)
           (o : PyObject) : option bytes :=
  match o with
  | PyBytes b | PyBytesSub _ b _ _ => Some b
  | PyUnicode u | PyUnicodeSub _ u _ _ =>
    match encode u with Ok b => Some b | Err _ => None end
  | _ => None
  end.

Definition no_system_event (t : list Event) : bool :=
  negb (existsb is_system_event t).

Definition no_integer_interpretation (t : list Event) : bool :=
  forallb (fun e => match e with EvAsLong _ => false | _ => true end) t.

(** The integer a value stands for, as [PyLong_AsLongAndOverflow] obtains
    it: the value of a host integer, what the [nb_index] slot gives for any
    other value that has one. *)
Definition integer_value (o : PyObject) : option (PyResult Z) :=
  match o with
  | PyLong v => Some (Ok v)
  | PyInstance _ i _ => i
  | PyBytesSub _ _ i _ => i
  | PyUnicodeSub _ _ i _ => i
  | _ => None
  end.

(** The verdict of the range checks of [fd_converter] on the integer [v]. *)
Definition fd_verdict (v : Z) : PyResult Z :=
  if INT_MAX <? v then
    Err (PyErr_String PyExc_OverflowError "fd is greater than maximum")
  else if v <? 0 then
    Err (PyErr_String PyExc_ValueError "fd is negative")
  else Ok v.

(** The sequences of host calls a resolution can make, for a value whose
    type is named [n]. *)
Definition call_sequences (n : string) : list (list Event) :=
  [ []; [EvFSConverter]; [EvAsLong n]; [EvFspath n];
    [EvFspath n; EvFSConverter] ].

(** * Properties *)

(** ** C strings *)

Lemma is_nul_true (c : byte) : is_nul c = true <-> c = x00.
Proof.
  unfold is_nul; split; intro H.
  - now apply byte_dec_bl.
  - now apply byte_dec_lb.
Qed.

Lemma strlen_full (s : bytes) :
  strlen s = List.length s <-> ~ In x00 s.
Proof.
  induction s as [|c s IH]; simpl.
  - split; auto.
  - destruct (is_nul c) eqn:E.
    + apply is_nul_true in E. subst c.
      split; [discriminate | intros H; exfalso; apply H; now left].
    + split.
      * intros H [Hc|Hin].
        -- subst c. discriminate E.
        -- apply IH; [lia | exact Hin].
      * intros H. f_equal. apply IH. intro Hin. apply H. now right.
Qed.

Lemma scan_passes (s : bytes) :
  (Z.of_nat (List.length s) =? Z.of_nat (strlen s)) = true <-> ~ In x00 s.
Proof.
  rewrite Z.eqb_eq, <- strlen_full. lia.
Qed.

Lemma scan_fails (s : bytes) :
  In x00 s -> (Z.of_nat (List.length s) =? Z.of_nat (strlen s)) = false.
Proof.
  intro H. destruct (Z.eqb_spec (Z.of_nat (List.length s)) (Z.of_nat (strlen s))) as [E|E];
    [|reflexivity].
  exfalso. apply Nat2Z.inj in E. symmetry in E. apply strlen_full in E. auto.
Qed.

(** ** Machine integers *)

Lemma int_of_long_id (v : Z) : INT_MIN <= v <= INT_MAX -> int_of_long v = v.
Proof.
  unfold int_of_long, INT_MIN, INT_MAX. intros H.
  rewrite Z.mod_small; lia.
Qed.

(** ** The monad *)

Lemma bind_ret_l {A B} (a : A) (k : A -> M B) : bind (ret a) k = k a.
Proof. unfold bind, ret. destruct (k a). reflexivity. Qed.

Lemma bind_tell {B} (ev : Event) (k : unit -> M B) :
  bind (tell ev) k = (ev :: trace (k tt), result (k tt)).
Proof. unfold bind, tell, trace, result. destruct (k tt). reflexivity. Qed.

Lemma bind_lift_ok {A B} (a : A) (k : A -> M B) : bind (lift (Ok a)) k = k a.
Proof. exact (bind_ret_l a k). Qed.

Lemma bind_lift_err {A B} (e : PyErr) (k : A -> M B) :
  bind (lift (Err e)) k = ([], Err e).
Proof. reflexivity. Qed.

Lemma bind_pair_ok {A B} (t : list Event) (a : A) (k : A -> M B) :
  bind (t, Ok a) k = (t ++ trace (k a), result (k a)).
Proof. unfold bind, trace, result. destruct (k a). reflexivity. Qed.

Lemma trace_ret {A} (a : A) : trace (ret a) = [].
Proof. reflexivity. Qed.

Lemma result_ret {A} (a : A) : result (ret a) = Ok a.
Proof. reflexivity. Qed.

Lemma M_eta {A} (m : M A) : m = (trace m, result m).
Proof. destruct m. reflexivity. Qed.

(** ** finish_path: the terminator scan *)

Section ConverterFacts.

Variable LONG_MAX : Z.
Variable conv : PyObject -> PyResult bytes.

Lemma finish_path_nul (p : path_arg) (o bo : PyObject) (same : bool) :
  In x00 (PyBytes_AS_STRING bo) ->
  finish_path p o bo same =
  ([], Err (PyErr_String PyExc_TypeError "path has embedded nul character")).
Proof.
  intro H. unfold finish_path, PyBytes_GET_SIZE.
  now rewrite (scan_fails _ H).
Qed.

Lemma finish_path_clean (p : path_arg) (o bo : PyObject) (same : bool) :
  ~ In x00 (PyBytes_AS_STRING bo) ->
  finish_path p o bo same =
  ([], Ok (Py_CLEANUP_SUPPORTED,
           PathArg.make (PathArg.allow_fd p) (Some (PyBytes_AS_STRING bo)) (-1)
                        (Z.of_nat (List.length (PyBytes_AS_STRING bo))) (Some o)
                        (if same then None else Some bo))).
Proof.
  intro H. unfold finish_path, PyBytes_GET_SIZE.
  apply scan_passes in H. now rewrite H.
Qed.

Lemma finish_path_cases (p : path_arg) (o bo : PyObject) (same : bool) :
  let b := PyBytes_AS_STRING bo in
  (In x00 b /\
   finish_path p o bo same =
   ([], Err (PyErr_String PyExc_TypeError "path has embedded nul character")))
  \/
  (~ In x00 b /\
   finish_path p o bo same =
   ([], Ok (Py_CLEANUP_SUPPORTED,
            PathArg.make (PathArg.allow_fd p) (Some b) (-1)
                         (Z.of_nat (List.length b)) (Some o)
                         (if same then None else Some bo)))).
Proof.
  cbv zeta.
  destruct (in_dec byte_eq_dec x00 (PyBytes_AS_STRING bo)) as [H|H].
  - left. split; [exact H | now apply finish_path_nul].
  - right. split; [exact H | now apply finish_path_clean].
Qed.

(** ** fd_converter *)

Lemma long_and_overflow_cases (v : Z) :
  (LONG_MAX < v /\ long_and_overflow LONG_MAX v = (-1, 1))
  \/ (v < LONG_MIN LONG_MAX /\ v <= LONG_MAX /\ long_and_overflow LONG_MAX v = (-1, -1))
  \/ (LONG_MIN LONG_MAX <= v <= LONG_MAX /\ long_and_overflow LONG_MAX v = (v, 0)).
Proof.
  unfold long_and_overflow.
  destruct (Z.gtb_spec v LONG_MAX); [left; split; [lia|reflexivity]|].
  destruct (Z.ltb_spec v (LONG_MIN LONG_MAX)); [right; left|right; right];
    repeat split; try lia.
Qed.

Lemma fd_check_ok (tmp overflow : Z) :
  forall tr fd,
  (let '(tmp, overflow) := (tmp, overflow) in
   if (overflow >? 0) || (tmp >? INT_MAX) then
     PyErr_SetString PyExc_OverflowError "fd is greater than maximum"
   else if (overflow <? 0) || (tmp <? 0) then
     PyErr_SetString PyExc_ValueError "fd is negative"
   else ret (int_of_long tmp)) = (tr, Ok fd) ->
  tr = [] /\ fd = tmp /\ 0 <= tmp <= INT_MAX.
Proof.
  intros tr fd H. cbv beta iota in H.
  destruct ((overflow >? 0) || (tmp >? INT_MAX)) eqn:E1; [discriminate H|].
  destruct ((overflow <? 0) || (tmp <? 0)) eqn:E2; [discriminate H|].
  apply orb_false_elim in E1, E2. destruct E1 as [_ E1], E2 as [_ E2].
  apply Z.gtb_ltb in E1 || idtac.
  assert (R : 0 <= tmp <= INT_MAX).
  { destruct (Z.gtb_spec tmp INT_MAX); [discriminate|].
    destruct (Z.ltb_spec tmp 0); [discriminate|]. lia. }
  unfold ret in H. inversion H; subst.
  repeat split; try lia.
  apply int_of_long_id. unfold INT_MIN. lia.
Qed.

Lemma fd_converter_ok (o : PyObject) (tr : list Event) (fd : Z) :
  fd_converter LONG_MAX o = (tr, Ok fd) -> 0 <= fd <= INT_MAX.
Proof.
  unfold fd_converter. rewrite bind_tell.
  intro H. injection H as _ Hr.
  assert (V : forall v,
             result (r <- ret (long_and_overflow LONG_MAX v) ;;
                     (let '(tmp, overflow) := r in
                      if (overflow >? 0) || (tmp >? INT_MAX) then
                        PyErr_SetString PyExc_OverflowError "fd is greater than maximum"
                      else if (overflow <? 0) || (tmp <? 0) then
                        PyErr_SetString PyExc_ValueError "fd is negative"
                      else ret (int_of_long tmp))) = Ok fd ->
             0 <= fd <= INT_MAX).
  { intros v Hv. rewrite bind_ret_l in Hv.
    destruct (long_and_overflow LONG_MAX v) as [tmp ov].
    unfold result in Hv.
    match type of Hv with snd ?m = _ => destruct m as [t r] eqn:Em end.
    simpl in Hv. subst r.
    destruct (fd_check_ok tmp ov Em) as (_ & -> & R). exact R. }
  destruct o as [v|b|u|n [[v|e]|] f|n b [[v|e]|] f|n u [[v|e]|] f];
    unfold PyLong_AsLongAndOverflow in Hr; try discriminate Hr;
    try (unfold lift in Hr); now apply (V v).
Qed.

(** The descriptor converter on a host integer, case by case. *)
Lemma fd_converter_PyLong (v : Z) :
  INT_MAX <= LONG_MAX ->
  fd_converter LONG_MAX (PyLong v) =
  ([EvAsLong "int"],
   if INT_MAX <? v then
     Err (PyErr_String PyExc_OverflowError "fd is greater than maximum")
   else if v <? 0 then
     Err (PyErr_String PyExc_ValueError "fd is negative")
   else Ok v).
Proof.
  intro HL. unfold fd_converter. rewrite bind_tell. simpl Py_TYPE_tp_name.
  unfold PyLong_AsLongAndOverflow. rewrite bind_ret_l.
  unfold INT_MAX in *.
  destruct (long_and_overflow_cases v) as [[H E]|[(H & H' & E)|[H E]]];
    rewrite E; cbv beta iota.
  - simpl. destruct (Z.ltb_spec 2147483647 v); [reflexivity | lia].
  - unfold LONG_MIN in H.
    destruct (Z.ltb_spec 2147483647 v); [lia|].
    destruct (Z.ltb_spec v 0); [reflexivity | lia].
  - destruct (Z.gtb_spec v 2147483647), (Z.ltb_spec 2147483647 v); try lia;
      simpl; [reflexivity|].
    destruct (Z.ltb_spec v 0); simpl; [reflexivity|].
    unfold ret, trace, result. simpl.
    rewrite int_of_long_id; [reflexivity | unfold INT_MIN, INT_MAX; lia].
Qed.

End ConverterFacts.

(** ** path_converter on each shape of input *)

Lemma path_converter_bytes LONG_MAX conv (p : path_arg) (o : PyObject) :
  PyBytes_Check o = true ->
  path_converter LONG_MAX conv (Some o) p = finish_path p o o true.
Proof.
  intro H. unfold path_converter. rewrite H.
  assert (U : PyUnicode_Check o = false) by (destruct o; try discriminate H; reflexivity).
  rewrite U. cbn [negb]. rewrite andb_false_r. cbn [andb].
  now rewrite bind_ret_l.
Qed.

Lemma path_converter_unicode LONG_MAX conv (p : path_arg) (o : PyObject) :
  PyUnicode_Check o = true ->
  path_converter LONG_MAX conv (Some o) p =
  match conv o with
  | Ok b => (EvFSConverter :: trace (finish_path p o (PyBytes b) false),
             result (finish_path p o (PyBytes b) false))
  | Err e => ([EvFSConverter], Err e)
  end.
Proof.
  intro H. unfold path_converter. rewrite H.
  cbn [negb]. rewrite andb_false_r.
  rewrite bind_ret_l. cbv beta iota. rewrite bind_tell.
  destruct (conv o) as [b|e].
  - now rewrite bind_lift_ok.
  - now rewrite bind_lift_err.
Qed.

Lemma path_converter_long_allowed LONG_MAX conv (p : path_arg) (v : Z) :
  PathArg.allow_fd p = true ->
  path_converter LONG_MAX conv (Some (PyLong v)) p =
  (fd <- fd_converter LONG_MAX (PyLong v) ;;
   ret (Py_CLEANUP_SUPPORTED,
        PathArg.make true None fd 0 (Some (PyLong v)) None)).
Proof.
  intro H. unfold path_converter. rewrite H. simpl.
  now rewrite bind_ret_l.
Qed.

Lemma path_converter_unsupported LONG_MAX conv (p : path_arg) (o : PyObject) :
  accepted_shape (PathArg.allow_fd p) o = false ->
  path_converter LONG_MAX conv (Some o) p =
  ([], Err (PyErr_String PyExc_TypeError
              ("expected " ++ accepted_shapes (PathArg.allow_fd p) ++ ", not "
                 ++ Py_TYPE_tp_name o)%string)).
Proof.
  unfold accepted_shape, has_fspath. intro H.
  apply orb_false_elim in H. destruct H as [H Hi].
  apply orb_false_elim in H. destruct H as [H Hf].
  apply orb_false_elim in H. destruct H as [Hu Hb].
  unfold path_converter. rewrite Hi, Hu, Hb. simpl.
  destruct (_PyObject_LookupSpecial___fspath__ o); [discriminate Hf|].
  reflexivity.
Qed.

(** ** C1 *)

(** C1, as stated, fails: the byte path [/path/with\0null] is refused with a
    TypeError, which is not a ValueError (the InvalidArgument class) nor
    derived from it. *)
Lemma C1_embedded_nul_raises_TypeError :
  path_converter LP64_LONG_MAX ascii_FSConverter
    (Some (PyBytes (bytes_of_string "/path/with" ++ x00 :: bytes_of_string "null")))
    (zero_path_arg true)
  = ([], Err (PyErr_String PyExc_TypeError "path has embedded nul character"))
  /\ PyType_IsSubtype builtin_base PyExc_TypeError PyExc_ValueError = false.
Proof. split; reflexivity. Qed.

Lemma existsb_is_nul (b : bytes) : existsb is_nul b = true <-> In x00 b.
Proof.
  rewrite existsb_exists. split.
  - intros (c & Hc & Hn). apply is_nul_true in Hn. now subst c.
  - intro H. exists x00. split; [exact H | reflexivity].
Qed.

(** C1 (amended): for every textual or byte path, with [b] its byte sequence
    after the text-to-bytes encoding: if [b] holds a zero byte at any
    position, resolution fails, for a byte path with the TypeError "path has
    embedded nul character" of the converter's own scan, and for a textual
    path with the ValueError "embedded null byte" with which the host's
    text-to-bytes conversion refuses it; if [b] holds none, resolution
    succeeds with [b] as the path and no descriptor; either way no system
    interaction takes place. *)
Theorem C1_terminator_scan :
  forall LONG_MAX encode (p : path_arg) (o : PyObject) (b : bytes),
    encoded_path_bytes encode o = Some b ->
    let m := path_converter LONG_MAX (FSConverter encode) (Some o) p in
    (In x00 b ->
     result m =
     Err (if PyBytes_Check o
          then PyErr_String PyExc_TypeError "path has embedded nul character"
          else PyErr_String PyExc_ValueError "embedded null byte"))
    /\ (~ In x00 b ->
        exists c,
          result m = Ok (Py_CLEANUP_SUPPORTED,
                         PathArg.make (PathArg.allow_fd p) (Some b) (-1)
                                      (Z.of_nat (List.length b)) (Some o) c))
    /\ no_system_event (trace m) = true.
Proof.
  intros LONG_MAX encode p o b Hb m. subst m.
  assert (B : forall o', PyBytes_Check o' = true -> PyBytes_AS_STRING o' = b ->
    let m := path_converter LONG_MAX (FSConverter encode) (Some o') p in
    (In x00 b ->
     result m = Err (PyErr_String PyExc_TypeError "path has embedded nul character"))
    /\ (~ In x00 b ->
        exists c,
          result m = Ok (Py_CLEANUP_SUPPORTED,
                         PathArg.make (PathArg.allow_fd p) (Some b) (-1)
                                      (Z.of_nat (List.length b)) (Some o') c))
    /\ no_system_event (trace m) = true).
  { intros o' Hc Hs. cbv zeta. rewrite path_converter_bytes by exact Hc.
    destruct (finish_path_cases p o' o' true) as [[Hin E]|[Hin E]];
      cbv zeta in Hin, E; rewrite ?Hs in Hin; rewrite ?Hs in E; rewrite E;
      repeat split; simpl; intros; try contradiction; eauto. }
  assert (T : forall o' u, PyUnicode_Check o' = true ->
    FSConverter encode o' =
    (match encode u with
     | Ok b' => if existsb is_nul b'
                then Err (PyErr_String PyExc_ValueError "embedded null byte")
                else Ok b'
     | Err e => Err e
     end) ->
    encode u = Ok b ->
    let m := path_converter LONG_MAX (FSConverter encode) (Some o') p in
    (In x00 b ->
     result m = Err (PyErr_String PyExc_ValueError "embedded null byte"))
    /\ (~ In x00 b ->
        exists c,
          result m = Ok (Py_CLEANUP_SUPPORTED,
                         PathArg.make (PathArg.allow_fd p) (Some b) (-1)
                                      (Z.of_nat (List.length b)) (Some o') c))
    /\ no_system_event (trace m) = true).
  { intros o' u Hc Hf He. cbv zeta. rewrite path_converter_unicode by exact Hc.
    rewrite Hf, He.
    destruct (existsb is_nul b) eqn:N.
    - apply existsb_is_nul in N.
      repeat split; simpl; intros; try contradiction; eauto.
    - assert (Hin : ~ In x00 b).
      { intro K. apply existsb_is_nul in K. rewrite K in N. discriminate N. }
      rewrite (finish_path_clean p o' (PyBytes b) false Hin).
      repeat split; simpl; intros; try contradiction; eauto. }
  destruct o as [v|b'|u|n i f|n b' i f|n u i f]; cbn [encoded_path_bytes] in Hb;
    try discriminate Hb.
  - injection Hb as ->. exact (B (PyBytes b) eq_refl eq_refl).
  - destruct (encode u) as [b'|e] eqn:E; [|discriminate Hb]. injection Hb as ->.
    exact (T (PyUnicode u) u eq_refl eq_refl E).
  - injection Hb as ->. exact (B (PyBytesSub n b i f) eq_refl eq_refl).
  - destruct (encode u) as [b'|e] eqn:E; [|discriminate Hb]. injection Hb as ->.
    exact (T (PyUnicodeSub n u i f) u eq_refl eq_refl E).
Qed.

Lemma C1_terminator_scan_witness :
  let o := PyUnicode [47; 97; 0; 98]%N in
  let b := [x2f; x61; x00; x62] in
  let m := path_converter LP64_LONG_MAX (FSConverter ascii_codec) (Some o)
             (zero_path_arg true) in
  encoded_path_bytes ascii_codec o = Some b
  /\ In x00 b
  /\ result m = Err (PyErr_String PyExc_ValueError "embedded null byte")
  /\ no_system_event (trace m) = true.
Proof.
  split; [reflexivity|].
  split; [simpl; auto|].
  destruct (@C1_terminator_scan LP64_LONG_MAX ascii_codec (zero_path_arg true)
              (PyUnicode [47; 97; 0; 98]%N) [x2f; x61; x00; x62] eq_refl)
    as (H & _ & T).
  split; [apply H; simpl; auto | exact T].
Defined.

(** ** C2 *)

(** C2: when descriptors are allowed, every integer [x] with
    [0 <= x <= INT_MAX] resolves to the descriptor [x] (no path); every
    [x > INT_MAX] fails with OverflowError and every [x < 0] with ValueError,
    and neither of these two classes derives from the other. *)
Theorem C2_descriptor_range :
  forall LONG_MAX conv (p : path_arg) (x : Z),
    INT_MAX <= LONG_MAX ->
    PathArg.allow_fd p = true ->
    let r := result (path_converter LONG_MAX conv (Some (PyLong x)) p) in
    (0 <= x <= INT_MAX ->
     r = Ok (Py_CLEANUP_SUPPORTED,
             PathArg.make true None x 0 (Some (PyLong x)) None))
    /\ (INT_MAX < x ->
        r = Err (PyErr_String PyExc_OverflowError "fd is greater than maximum"))
    /\ (x < 0 ->
        r = Err (PyErr_String PyExc_ValueError "fd is negative"))
    /\ PyType_IsSubtype builtin_base PyExc_OverflowError PyExc_ValueError = false
    /\ PyType_IsSubtype builtin_base PyExc_ValueError PyExc_OverflowError = false.
Proof.
  intros LONG_MAX conv p x HL Hp r. subst r.
  rewrite path_converter_long_allowed by exact Hp.
  rewrite fd_converter_PyLong by exact HL.
  unfold INT_MAX in *.
  repeat split; try reflexivity; intro H.
  - destruct (Z.ltb_spec 2147483647 x); [lia|].
    destruct (Z.ltb_spec x 0); [lia|]. reflexivity.
  - destruct (Z.ltb_spec 2147483647 x); [reflexivity|lia].
  - destruct (Z.ltb_spec 2147483647 x); [lia|].
    destruct (Z.ltb_spec x 0); [reflexivity|lia].
Qed.

Lemma C2_descriptor_range_witness :
  let r := result (path_converter LP64_LONG_MAX ascii_FSConverter
                     (Some (PyLong 3)) (zero_path_arg true)) in
  INT_MAX <= LP64_LONG_MAX
  /\ PathArg.allow_fd (zero_path_arg true) = true
  /\ (0 <= 3 <= INT_MAX ->
      r = Ok (Py_CLEANUP_SUPPORTED,
              PathArg.make true None 3 0 (Some (PyLong 3)) None))
  /\ (INT_MAX < 3 ->
      r = Err (PyErr_String PyExc_OverflowError "fd is greater than maximum"))
  /\ (3 < 0 ->
      r = Err (PyErr_String PyExc_ValueError "fd is negative"))
  /\ PyType_IsSubtype builtin_base PyExc_OverflowError PyExc_ValueError = false
  /\ PyType_IsSubtype builtin_base PyExc_ValueError PyExc_OverflowError = false.
Proof.
  split; [unfold INT_MAX, LP64_LONG_MAX; lia|].
  split; [reflexivity|].
  apply (@C2_descriptor_range LP64_LONG_MAX ascii_FSConverter
           (zero_path_arg true) 3).
  - unfold INT_MAX, LP64_LONG_MAX; lia.
  - reflexivity.
Defined.

(** ** C5 *)

(** C5: every input that is neither text, nor bytes, nor a value with the
    [__fspath__] hook, nor (when descriptors are allowed) a value with an
    integer interpretation, is refused with a TypeError whose message lists
    the accepted shapes of the call: string, bytes and os.PathLike always,
    integer exactly when descriptors are allowed. *)
Theorem C5_unsupported_shape :
  forall LONG_MAX conv (p : path_arg) (o : PyObject),
    accepted_shape (PathArg.allow_fd p) o = false ->
    path_converter LONG_MAX conv (Some o) p =
    ([], Err (PyErr_String PyExc_TypeError
                ("expected " ++ accepted_shapes (PathArg.allow_fd p)
                   ++ ", not " ++ Py_TYPE_tp_name o)%string))
    /\ contains "integer" (accepted_shapes (PathArg.allow_fd p))
       = PathArg.allow_fd p
    /\ contains "string" (accepted_shapes (PathArg.allow_fd p)) = true
    /\ contains "bytes" (accepted_shapes (PathArg.allow_fd p)) = true
    /\ contains "os.PathLike" (accepted_shapes (PathArg.allow_fd p)) = true.
Proof.
  intros LONG_MAX conv p o H. split.
  - now apply path_converter_unsupported.
  - destruct (PathArg.allow_fd p); repeat split; reflexivity.
Qed.

Lemma C5_unsupported_shape_witness :
  accepted_shape false (PyLong 3) = false
  /\ path_converter LP64_LONG_MAX ascii_FSConverter (Some (PyLong 3))
       (zero_path_arg false) =
     ([], Err (PyErr_String PyExc_TypeError
                 "expected string, bytes, or os.PathLike, not int"))
  /\ contains "integer" (accepted_shapes false) = false
  /\ contains "string" (accepted_shapes false) = true
  /\ contains "bytes" (accepted_shapes false) = true
  /\ contains "os.PathLike" (accepted_shapes false) = true.
Proof.
  split; [reflexivity|].
  apply (@C5_unsupported_shape LP64_LONG_MAX ascii_FSConverter
           (zero_path_arg false) (PyLong 3)).
  reflexivity.
Defined.

(** ** Values with hooks *)

Lemma trace_bind {A B} (m : M A) (k : A -> M B) :
  trace (bind m k) =
  match result m with
  | Ok a => trace m ++ trace (k a)
  | Err _ => trace m
  end.
Proof.
  destruct m as [t [a|e]]; unfold bind, trace, result; simpl;
    [destruct (k a)|]; reflexivity.
Qed.

Lemma result_bind {A B} (m : M A) (k : A -> M B) :
  result (bind m k) =
  match result m with
  | Ok a => result (k a)
  | Err e => Err e
  end.
Proof.
  destruct m as [t [a|e]]; unfold bind, trace, result; simpl;
    [destruct (k a)|]; reflexivity.
Qed.

Lemma fd_converter_trace LONG_MAX (o : PyObject) :
  trace (fd_converter LONG_MAX o) = [EvAsLong (Py_TYPE_tp_name o)].
Proof.
  unfold fd_converter. rewrite bind_tell. unfold trace at 1. simpl fst.
  f_equal. rewrite trace_bind.
  assert (T : trace (PyLong_AsLongAndOverflow LONG_MAX o) = []).
  { destruct o as [v|b|u|n [[v|e]|] f|n b [[v|e]|] f|n u [[v|e]|] f];
    reflexivity. }
  rewrite T.
  destruct (result (PyLong_AsLongAndOverflow LONG_MAX o)) as [[tmp ov]|e];
    [|reflexivity].
  simpl. destruct ((ov >? 0) || (tmp >? INT_MAX)); [reflexivity|].
  destruct ((ov <? 0) || (tmp <? 0)); reflexivity.
Qed.

Lemma path_converter_index LONG_MAX conv (p : path_arg) n i f :
  PathArg.allow_fd p = true ->
  path_converter LONG_MAX conv (Some (PyInstance n (Some i) f)) p =
  (fd <- fd_converter LONG_MAX (PyInstance n (Some i) f) ;;
   ret (Py_CLEANUP_SUPPORTED,
        PathArg.make true None fd 0 (Some (PyInstance n (Some i) f)) None)).
Proof.
  intro H. unfold path_converter. rewrite H. simpl.
  now rewrite bind_ret_l.
Qed.

Lemma path_converter_hook LONG_MAX conv (p : path_arg) n i r :
  PathArg.allow_fd p && PyIndex_Check (PyInstance n i (Some r)) = false ->
  path_converter LONG_MAX conv (Some (PyInstance n i (Some r))) p =
  match r with
  | Err e => ([EvFspath n], Err e)
  | Ok o' =>
    if PyBytes_Check o' || PyUnicode_Check o' then
      (EvFspath n :: trace (path_converter LONG_MAX conv (Some o') p),
       result (path_converter LONG_MAX conv (Some o') p))
    else
      ([EvFspath n],
       Err (PyErr_String PyExc_TypeError
              ("expected " ++ accepted_shapes (PathArg.allow_fd p) ++ ", not "
                 ++ Py_TYPE_tp_name o')%string))
  end.
Proof.
  intro H. unfold path_converter at 1. rewrite H.
  cbn [PyBytes_Check PyUnicode_Check negb andb
       _PyObject_LookupSpecial___fspath__ Py_TYPE_tp_name].
  destruct r as [o'|e].
  - rewrite bind_tell, bind_lift_ok, trace_ret, result_ret, bind_pair_ok.
    cbv beta iota. cbn [app].
    destruct (PyUnicode_Check o') eqn:U.
    + rewrite orb_true_r, (path_converter_unicode LONG_MAX conv p o' U), bind_tell.
      destruct (conv o') as [b|e].
      * rewrite bind_lift_ok. reflexivity.
      * rewrite bind_lift_err. reflexivity.
    + destruct (PyBytes_Check o') eqn:B; cbn [orb].
      * now rewrite (path_converter_bytes LONG_MAX conv p o' B).
      * reflexivity.
  - rewrite bind_tell, bind_lift_err. reflexivity.
Qed.

Lemma direct_trace LONG_MAX conv (p : path_arg) (o : PyObject) :
  PyBytes_Check o || PyUnicode_Check o = true ->
  trace (path_converter LONG_MAX conv (Some o) p)
  = (if PyUnicode_Check o then [EvFSConverter] else []).
Proof.
  intro H. destruct (PyUnicode_Check o) eqn:U.
  - rewrite (path_converter_unicode LONG_MAX conv p o U).
    destruct (conv o) as [b|e]; [|reflexivity].
    destruct (finish_path_cases p o (PyBytes b) false) as [[_ E]|[_ E]];
      now rewrite E.
  - rewrite orb_false_r in H.
    rewrite (path_converter_bytes LONG_MAX conv p o H).
    destruct (finish_path_cases p o o true) as [[_ E]|[_ E]]; now rewrite E.
Qed.

Lemma path_trace_no_integer LONG_MAX conv (p : path_arg) (o : PyObject) :
  PyBytes_Check o || PyUnicode_Check o = true ->
  no_integer_interpretation (trace (path_converter LONG_MAX conv (Some o) p))
  = true.
Proof.
  intro H. rewrite (direct_trace LONG_MAX conv p o H).
  destruct (PyUnicode_Check o); reflexivity.
Qed.

Lemma direct_success LONG_MAX conv (p : path_arg) (o : PyObject) rc p' :
  PyBytes_Check o || PyUnicode_Check o = true ->
  result (path_converter LONG_MAX conv (Some o) p) = Ok (rc, p') ->
  PathArg.object p' = Some o /\ PathArg.fd p' = -1
  /\ PathArg.path p' <> None.
Proof.
  intros H R. destruct (PyUnicode_Check o) eqn:U.
  - rewrite (path_converter_unicode LONG_MAX conv p o U) in R.
    destruct (conv o) as [b|e]; [|discriminate R].
    destruct (finish_path_cases p o (PyBytes b) false) as [[_ E]|[_ E]];
      rewrite E in R; [discriminate R|].
    injection R as _ <-. repeat split. discriminate.
  - rewrite orb_false_r in H.
    rewrite (path_converter_bytes LONG_MAX conv p o H) in R.
    destruct (finish_path_cases p o o true) as [[_ E]|[_ E]];
      rewrite E in R; [discriminate R|].
    injection R as _ <-. repeat split. discriminate.
Qed.

(** ** C3 *)

(** C3, as stated, fails: a value with both [__index__] (giving 3) and
    [__fspath__] (giving [/mnt/test]) is, when descriptors are allowed,
    taken as descriptor 3; its hook is never called. *)
Lemma C3_index_taken_before_fspath :
  path_converter LP64_LONG_MAX ascii_FSConverter
    (Some (PyInstance "FdPath" (Some (Ok 3))
             (Some (Ok (PyBytes (bytes_of_string "/mnt/test"))))))
    (zero_path_arg true)
  = ([EvAsLong "FdPath"],
     Ok (Py_CLEANUP_SUPPORTED,
         PathArg.make true None 3 0
           (Some (PyInstance "FdPath" (Some (Ok 3))
                    (Some (Ok (PyBytes (bytes_of_string "/mnt/test"))))))
           None)).
Proof. reflexivity. Qed.

(** C3 (amended): for every value that has the [__fspath__] hook: a value
    that is itself text or bytes (of type str or bytes or of a subclass) is
    resolved as that text or bytes, and neither its hook nor an integer
    interpretation is used, even when it has one and descriptors are
    allowed; any other value, when descriptors are allowed and it has an
    integer interpretation, is interpreted as a descriptor and its hook is
    not called; otherwise the hook is called first, no integer
    interpretation follows it, and a text or bytes product of the hook is
    resolved as that path would be. *)
Theorem C3_hook_precedence :
  forall LONG_MAX conv (p : path_arg) (o : PyObject) r,
    _PyObject_LookupSpecial___fspath__ o = Some r ->
    let m := path_converter LONG_MAX conv (Some o) p in
    let n := Py_TYPE_tp_name o in
    if PyBytes_Check o || PyUnicode_Check o
    then trace m = (if PyUnicode_Check o then [EvFSConverter] else [])
         /\ (forall rc p', result m = Ok (rc, p') ->
                           PathArg.object p' = Some o /\ PathArg.fd p' = -1
                           /\ PathArg.path p' <> None)
    else if PathArg.allow_fd p && PyIndex_Check o
    then trace m = [EvAsLong n]
    else exists tl,
        trace m = EvFspath n :: tl
        /\ no_integer_interpretation tl = true
        /\ (forall o', r = Ok o' ->
                       PyBytes_Check o' || PyUnicode_Check o' = true ->
                       result m = result (path_converter LONG_MAX conv (Some o') p)).
Proof.
  intros LONG_MAX conv p o r Hr m n. subst m n.
  destruct (PyBytes_Check o || PyUnicode_Check o) eqn:D.
  { split; [now apply direct_trace|].
    intros rc p' R. exact (direct_success LONG_MAX conv p o D R). }
  destruct o as [v|b|u|n i f|n b i f|n u i f];
    cbn [PyBytes_Check PyUnicode_Check orb] in D; try discriminate D;
    cbn [_PyObject_LookupSpecial___fspath__] in Hr; try discriminate Hr.
  subst f. cbn [Py_TYPE_tp_name].
  destruct (PathArg.allow_fd p && PyIndex_Check (PyInstance n i (Some r))) eqn:E.
  - apply andb_prop in E. destruct E as [Ha Hi].
    destruct i as [i|]; [|discriminate Hi].
    rewrite path_converter_index by exact Ha.
    rewrite trace_bind, fd_converter_trace.
    destruct (result (fd_converter LONG_MAX (PyInstance n (Some i) (Some r))));
      reflexivity.
  - rewrite path_converter_hook by exact E.
    destruct r as [o'|e].
    + destruct (PyBytes_Check o' || PyUnicode_Check o') eqn:S.
      * eexists. split; [reflexivity|]. split.
        -- now apply path_trace_no_integer.
        -- intros o'' Ho _. injection Ho as <-. reflexivity.
      * exists []. split; [reflexivity|]. split; [reflexivity|].
        intros o'' Ho S'. injection Ho as <-. rewrite S in S'. discriminate S'.
    + exists []. split; [reflexivity|]. split; [reflexivity|].
      intros o' Ho. discriminate Ho.
Qed.

Lemma C3_hook_precedence_witness :
  let hook := Ok (PyBytes (bytes_of_string "/elsewhere")) in
  let o := PyUnicodeSub "PathStr" (unicode_of_string "/mnt/test")
             (Some (Ok 3)) (Some hook) in
  let m := path_converter LP64_LONG_MAX ascii_FSConverter (Some o)
             (zero_path_arg true) in
  _PyObject_LookupSpecial___fspath__ o = Some hook
  /\ trace m = [EvFSConverter]
  /\ (forall rc p', result m = Ok (rc, p') ->
                    PathArg.object p' = Some o /\ PathArg.fd p' = -1
                    /\ PathArg.path p' <> None).
Proof.
  split; [reflexivity|].
  exact (@C3_hook_precedence LP64_LONG_MAX ascii_FSConverter (zero_path_arg true)
           (PyUnicodeSub "PathStr" (unicode_of_string "/mnt/test")
              (Some (Ok 3)) (Some (Ok (PyBytes (bytes_of_string "/elsewhere")))))
           (Ok (PyBytes (bytes_of_string "/elsewhere"))) eq_refl).
Defined.

(** ** C6 *)

Lemma fspath_called_iff LONG_MAX conv (p : path_arg) n i r :
  In (EvFspath n)
     (trace (path_converter LONG_MAX conv (Some (PyInstance n i (Some r))) p))
  <-> PathArg.allow_fd p && PyIndex_Check (PyInstance n i (Some r)) = false.
Proof.
  destruct (PathArg.allow_fd p && PyIndex_Check (PyInstance n i (Some r))) eqn:E.
  - apply andb_prop in E. destruct E as [Ha Hi].
    destruct i as [i|]; [|discriminate Hi].
    rewrite path_converter_index by exact Ha.
    rewrite trace_bind, fd_converter_trace.
    split; [|discriminate].
    destruct (result (fd_converter LONG_MAX (PyInstance n (Some i) (Some r))));
      simpl; intros [K|K]; try discriminate K; destruct K.
  - rewrite path_converter_hook by exact E.
    split; [reflexivity|]. intros _.
    destruct r as [o'|e]; [|now left].
    destruct (PyBytes_Check o' || PyUnicode_Check o'); now left.
Qed.

(** C6: whenever the [__fspath__] hook of a value is called and raises,
    resolution ends there with the hook's own error, exception type and
    value unchanged; no TypeError is put in its place. *)
Theorem C6_hook_failure_propagates :
  forall LONG_MAX conv (p : path_arg) (o : PyObject) (e : PyErr),
    _PyObject_LookupSpecial___fspath__ o = Some (Err e) ->
    let m := path_converter LONG_MAX conv (Some o) p in
    In (EvFspath (Py_TYPE_tp_name o)) (trace m) ->
    m = ([EvFspath (Py_TYPE_tp_name o)], Err e).
Proof.
  intros LONG_MAX conv p o e L m H. subst m.
  destruct (PyBytes_Check o || PyUnicode_Check o) eqn:D.
  { rewrite (direct_trace LONG_MAX conv p o D) in H.
    destruct (PyUnicode_Check o); simpl in H;
      [destruct H as [H|[]]; discriminate H | destruct H]. }
  destruct o as [v|b|u|n i f|n b i f|n u i f];
    cbn [PyBytes_Check PyUnicode_Check orb] in D; try discriminate D;
    cbn [_PyObject_LookupSpecial___fspath__] in L; try discriminate L.
  subst f. cbn [Py_TYPE_tp_name] in *.
  apply fspath_called_iff in H.
  now rewrite path_converter_hook by exact H.
Qed.

Lemma C6_hook_failure_propagates_witness :
  let e := PyErr_String (PyUser_Type "PermissionDenied") "no path for you" in
  let o := PyInstance "Broken" None (Some (Err e)) in
  let m := path_converter LP64_LONG_MAX ascii_FSConverter (Some o)
             (zero_path_arg true) in
  _PyObject_LookupSpecial___fspath__ o = Some (Err e)
  /\ In (EvFspath "Broken") (trace m) /\ m = ([EvFspath "Broken"], Err e).
Proof.
  split; [reflexivity|].
  split; [left; reflexivity|].
  apply (@C6_hook_failure_propagates LP64_LONG_MAX ascii_FSConverter
           (zero_path_arg true)
           (PyInstance "Broken" None
              (Some (Err (PyErr_String (PyUser_Type "PermissionDenied")
                            "no path for you"))))).
  - reflexivity.
  - left; reflexivity.
Defined.

(** ** C10 *)

Lemma path_variant LONG_MAX conv (p : path_arg) (o : PyObject) rc p' :
  PyBytes_Check o || PyUnicode_Check o = true ->
  result (path_converter LONG_MAX conv (Some o) p) = Ok (rc, p') ->
  PathArg.fd p' = -1 /\
  exists b, PathArg.path p' = Some b /\ ~ In x00 b
            /\ PathArg.length p' = Z.of_nat (List.length b).
Proof.
  intros D H. destruct (PyUnicode_Check o) eqn:U.
  - rewrite (path_converter_unicode LONG_MAX conv p o U) in H.
    destruct (conv o) as [b|e]; [|discriminate H].
    destruct (finish_path_cases p o (PyBytes b) false) as [[Hn E]|[Hn E]];
      rewrite E in H; [discriminate H|].
    injection H as _ <-. simpl. eauto.
  - rewrite orb_false_r in D.
    rewrite (path_converter_bytes LONG_MAX conv p o D) in H.
    destruct (finish_path_cases p o o true) as [[Hn E]|[Hn E]];
      rewrite E in H; [discriminate H|].
    injection H as _ <-. cbn [PathArg.fd PathArg.path PathArg.length]. eauto.
Qed.

Lemma descriptor_variant LONG_MAX (o : PyObject) rc p' :
  result (fd <- fd_converter LONG_MAX o ;;
          ret (Py_CLEANUP_SUPPORTED,
               PathArg.make true None fd 0 (Some o) None)) = Ok (rc, p') ->
  0 <= PathArg.fd p' <= INT_MAX /\ PathArg.path p' = None.
Proof.
  rewrite result_bind.
  destruct (fd_converter LONG_MAX o) as [t [fd|e]] eqn:E;
    unfold result; simpl; intro H; [|discriminate H].
  unfold ret in H. injection H as _ <-. simpl.
  split; [|reflexivity]. exact (fd_converter_ok _ _ E).
Qed.

(** C10: whenever resolution succeeds, the handle is of exactly one variant:
    a descriptor ([fd >= 0], [path] NULL) or a path ([path] not NULL,
    [fd = -1]); never both, never neither. *)
Theorem C10_exactly_one_variant :
  forall LONG_MAX conv (o : PyObject) (p : path_arg) rc (p' : path_arg),
    result (path_converter LONG_MAX conv (Some o) p) = Ok (rc, p') ->
    ((0 <= PathArg.fd p' /\ PathArg.path p' = None)
     \/ (PathArg.fd p' = -1 /\ exists b, PathArg.path p' = Some b))
    /\ ~ (0 <= PathArg.fd p' /\ PathArg.path p' <> None)
    /\ ~ (PathArg.fd p' < 0 /\ PathArg.path p' = None).
Proof.
  intros LONG_MAX conv o p rc p' H.
  assert (V : (0 <= PathArg.fd p' <= INT_MAX /\ PathArg.path p' = None)
              \/ (PathArg.fd p' = -1 /\ exists b, PathArg.path p' = Some b)).
  { destruct (accepted_shape (PathArg.allow_fd p) o) eqn:A.
    2:{ rewrite path_converter_unsupported in H by exact A. discriminate H. }
    destruct (PyBytes_Check o || PyUnicode_Check o) eqn:D.
    { right. destruct (path_variant LONG_MAX conv p o D H) as (F & b' & P & _).
      eauto. }
    destruct o as [v|b|u|n i f|n b i f|n u i f];
      cbn [PyBytes_Check PyUnicode_Check orb] in D; try discriminate D.
    - destruct (PathArg.allow_fd p) eqn:Ha; [|discriminate A].
      rewrite path_converter_long_allowed in H by exact Ha.
      left. exact (descriptor_variant _ _ H).
    - destruct (PathArg.allow_fd p && PyIndex_Check (PyInstance n i f)) eqn:E.
      + apply andb_prop in E. destruct E as [Ha Hi].
        destruct i as [i|]; [|discriminate Hi].
        rewrite path_converter_index in H by exact Ha.
        left. exact (descriptor_variant _ _ H).
      + destruct f as [r|].
        2:{ unfold accepted_shape in A. rewrite E in A. discriminate A. }
        rewrite path_converter_hook in H by exact E.
        destruct r as [o'|e]; [|discriminate H].
        destruct (PyBytes_Check o' || PyUnicode_Check o') eqn:S;
          [|discriminate H].
        right. unfold result in H. simpl in H.
        destruct (path_variant LONG_MAX conv p o' S H) as (F & b' & P & _).
        eauto. }
  destruct V as [[R P]|[F [b P]]].
  - split; [left; split; [lia | exact P]|].
    split; intros [K1 K2]; [congruence | lia].
  - split; [right; eauto|].
    split; intros [K1 K2]; [lia | congruence].
Qed.

Lemma C10_exactly_one_variant_witness :
  let p' := PathArg.make true None 3 0 (Some (PyLong 3)) None in
  result (path_converter LP64_LONG_MAX ascii_FSConverter (Some (PyLong 3))
            (zero_path_arg true)) = Ok (Py_CLEANUP_SUPPORTED, p')
  /\ ((0 <= PathArg.fd p' /\ PathArg.path p' = None)
      \/ (PathArg.fd p' = -1 /\ exists b, PathArg.path p' = Some b))
  /\ ~ (0 <= PathArg.fd p' /\ PathArg.path p' <> None)
  /\ ~ (PathArg.fd p' < 0 /\ PathArg.path p' = None).
Proof.
  split; [reflexivity|].
  apply (@C10_exactly_one_variant LP64_LONG_MAX ascii_FSConverter
           (PyLong 3) (zero_path_arg true) Py_CLEANUP_SUPPORTED).
  reflexivity.
Defined.

(** ** C7 *)

Lemma PyInit_btrfsutil_succeeds ready_ok add_ok consts (s : Statics) :
  (forall t, ready_ok t = true) ->
  exists m s', PyInit_btrfsutil ready_ok true add_ok consts s = Some (m, s').
Proof.
  intro H. unfold PyInit_btrfsutil, PyType_Ready, PyModule_Create.
  rewrite !H. eauto.
Qed.

Lemma control_failure (kernel : Operation -> Target -> Z -> Z + Z)
      (op : Operation) (p : path_arg) (transid code : Z) :
  kernel op (target_of p) transid = inl code ->
  control kernel op p transid =
  ([EvControl op (target_of p) transid],
   Err (PyErr_BtrfsUtil (ControlError.make op (PathArg.path p) code))).
Proof.
  intro H. unfold control. rewrite bind_tell, H. reflexivity.
Qed.

(** C7: once the module is initialised, BtrfsUtilError has OSError as its
    base, so it is a subtype of OSError, while it is no subtype of TypeError
    or ValueError and these are no subtypes of OSError; the module binds the
    name BtrfsUtilError to it whenever the host could bind the name; the
    error of a failed control request is of that type and carries the
    operation, the path when the target was one, and the system error
    code. *)
Theorem C7_error_type :
  forall ready_ok create_ok add_ok consts (s : Statics) (m : PyModule)
         (s' : Statics),
    PyInit_btrfsutil ready_ok create_ok add_ok consts s = Some (m, s') ->
    (exists m0, m = consts m0
                /\ (add_ok "BtrfsUtilError"%string = true ->
                    dict_get (md_dict m0) "BtrfsUtilError"
                    = Some (AttrType BtrfsUtilError_type)))
    /\ tp_base (BtrfsUtilError_type_object s') = Some PyExc_OSError
    /\ PyType_IsSubtype (type_base s') BtrfsUtilError_type PyExc_OSError = true
    /\ PyType_IsSubtype (type_base s') BtrfsUtilError_type PyExc_TypeError = false
    /\ PyType_IsSubtype (type_base s') BtrfsUtilError_type PyExc_ValueError = false
    /\ PyType_IsSubtype (type_base s') PyExc_TypeError PyExc_OSError = false
    /\ PyType_IsSubtype (type_base s') PyExc_ValueError PyExc_OSError = false
    /\ (forall kernel op (p : path_arg) transid code,
          kernel op (target_of p) transid = inl code ->
          exists c,
            result (control kernel op p transid) = Err (PyErr_BtrfsUtil c)
            /\ exc_type (PyErr_BtrfsUtil c) = BtrfsUtilError_type
            /\ ControlError.operation c = op
            /\ ControlError.path c = PathArg.path p
            /\ ControlError.system_error_code c = code).
Proof.
  intros ready_ok create_ok add_ok consts s m s' H.
  unfold PyInit_btrfsutil, PyType_Ready, PyModule_Create in H.
  destruct (ready_ok _); [|discriminate H].
  destruct (ready_ok _); [|discriminate H].
  destruct create_ok; [|discriminate H].
  injection H as <- <-.
  split.
  { eexists. split; [reflexivity|]. intro A. rewrite A.
    destruct (add_ok "QgroupInherit"%string); reflexivity. }
  split; [reflexivity|].
  do 5 (split; [reflexivity|]).
  intros kernel op p transid code K.
  rewrite (control_failure kernel op p transid K).
  eexists. split; [reflexivity|]. repeat split.
Qed.

Lemma C7_error_type_witness :
  exists m s',
    PyInit_btrfsutil (fun _ => true) true (fun _ => true) (fun m => m)
      initial_statics
    = Some (m, s')
    /\ tp_base (BtrfsUtilError_type_object s') = Some PyExc_OSError
    /\ PyType_IsSubtype (type_base s') BtrfsUtilError_type PyExc_OSError = true
    /\ PyType_IsSubtype (type_base s') BtrfsUtilError_type PyExc_TypeError = false
    /\ PyType_IsSubtype (type_base s') BtrfsUtilError_type PyExc_ValueError = false.
Proof.
  eexists. eexists. split; [reflexivity|].
  pose proof (@C7_error_type (fun _ => true) true (fun _ => true) (fun m => m)
                initial_statics _ _ eq_refl) as (_ & A & B & C & D & _).
  exact (conj A (conj B (conj C D))).
Defined.

(** ** C8 *)

(** C8: for every target, [wait_sync] with the transaction identifier given
    as 0 and [wait_sync] with it left out are the same computation: same
    events, same result. *)
Theorem C8_wait_sync_default :
  forall LONG_MAX conv kernel policy (target : PyObject),
    wait_sync LONG_MAX conv kernel policy target (Some 0)
    = wait_sync LONG_MAX conv kernel policy target None.
Proof. intros. reflexivity. Qed.

(** ** C9 *)

(** C9: for every target and every negative transaction identifier,
    [wait_sync] fails with a ValueError, and its trace is empty: the
    filesystem is not contacted. *)
Theorem C9_negative_transid :
  forall LONG_MAX conv kernel policy (target : PyObject) (transid : Z),
    transid < 0 ->
    exists msg,
      wait_sync LONG_MAX conv kernel policy target (Some transid)
      = ([], Err (PyErr_String PyExc_ValueError msg))
      /\ no_system_event
           (trace (wait_sync LONG_MAX conv kernel policy target (Some transid)))
         = true.
Proof.
  intros LONG_MAX conv kernel policy target transid H.
  unfold wait_sync. apply Z.ltb_lt in H. rewrite H.
  eexists. split; reflexivity.
Qed.

Lemma C9_negative_transid_witness :
  -1 < 0 /\
  exists msg,
    wait_sync LP64_LONG_MAX ascii_FSConverter example_kernel (fun _ => true)
      (PyUnicode (unicode_of_string "/mnt/test")) (Some (-1))
    = ([], Err (PyErr_String PyExc_ValueError msg))
    /\ no_system_event
         (trace (wait_sync LP64_LONG_MAX ascii_FSConverter example_kernel
                   (fun _ => true)
                   (PyUnicode (unicode_of_string "/mnt/test")) (Some (-1))))
       = true.
Proof.
  split; [lia|].
  apply (@C9_negative_transid LP64_LONG_MAX ascii_FSConverter example_kernel
           (fun _ => true)
           (PyUnicode (unicode_of_string "/mnt/test")) (-1)).
  lia.
Defined.

(** * Further properties of the converters and of the initialiser *)

(** ** fd_converter on any value with an integer interpretation *)

Lemma fd_range_check LONG_MAX (v : Z) :
  INT_MAX <= LONG_MAX ->
  (let '(tmp, overflow) := long_and_overflow LONG_MAX v in
   if (overflow >? 0) || (tmp >? INT_MAX) then
     PyErr_SetString PyExc_OverflowError "fd is greater than maximum"
   else if (overflow <? 0) || (tmp <? 0) then
     PyErr_SetString PyExc_ValueError "fd is negative"
   else ret (int_of_long tmp)) = ([], fd_verdict v).
Proof.
  intro HL. unfold fd_verdict, INT_MAX in *.
  destruct (long_and_overflow_cases LONG_MAX v) as [[H E]|[(H & H' & E)|[H E]]];
    rewrite E; cbv beta iota.
  - simpl. destruct (Z.ltb_spec 2147483647 v); [reflexivity | lia].
  - unfold LONG_MIN in H.
    destruct (Z.ltb_spec 2147483647 v); [lia|].
    destruct (Z.ltb_spec v 0); [reflexivity | lia].
  - destruct (Z.gtb_spec v 2147483647), (Z.ltb_spec 2147483647 v); try lia;
      simpl; [reflexivity|].
    destruct (Z.ltb_spec v 0); simpl; [reflexivity|].
    unfold ret. rewrite int_of_long_id; [reflexivity | unfold INT_MIN, INT_MAX; lia].
Qed.

(** X1: for every value whose integer interpretation is [v] (a host integer
    or a value whose [__index__] gives [v]), [fd_converter] makes one integer
    interpretation and answers by [v] alone: OverflowError above [INT_MAX]
    (also beyond the range of [long]), ValueError below zero, and otherwise
    the descriptor [v] itself, unchanged by the narrowing to [int]. *)
Theorem fd_converter_by_value :
  forall LONG_MAX (o : PyObject) (v : Z),
    INT_MAX <= LONG_MAX ->
    integer_value o = Some (Ok v) ->
    fd_converter LONG_MAX o = ([EvAsLong (Py_TYPE_tp_name o)], fd_verdict v).
Proof.
  intros LONG_MAX o v HL Hv.
  unfold fd_converter. rewrite bind_tell.
  destruct o as [w|b|u|n [[w|e]|] f|n b [[w|e]|] f|n u [[w|e]|] f];
    cbn [integer_value] in Hv; try discriminate Hv; injection Hv as ->;
    unfold PyLong_AsLongAndOverflow; rewrite ?bind_lift_ok;
    rewrite bind_ret_l, (fd_range_check v HL); reflexivity.
Qed.

Lemma fd_converter_by_value_witness :
  INT_MAX <= LP64_LONG_MAX
  /\ integer_value (PyInstance "Handle" (Some (Ok 4294967296)) None)
     = Some (Ok 4294967296)
  /\ fd_converter LP64_LONG_MAX (PyInstance "Handle" (Some (Ok 4294967296)) None)
     = ([EvAsLong "Handle"],
        Err (PyErr_String PyExc_OverflowError "fd is greater than maximum")).
Proof.
  split; [unfold INT_MAX, LP64_LONG_MAX; lia|].
  split; [reflexivity|].
  apply (@fd_converter_by_value LP64_LONG_MAX
           (PyInstance "Handle" (Some (Ok 4294967296)) None) 4294967296).
  - unfold INT_MAX, LP64_LONG_MAX; lia.
  - reflexivity.
Defined.

(** X2: when descriptors are allowed and the [__index__] of a value that is
    neither text nor bytes raises, resolution ends with that error unchanged,
    after the one integer interpretation; the [__fspath__] hook of the
    value, if any, is not tried. *)
Theorem index_failure_propagates :
  forall LONG_MAX conv (p : path_arg) n (e : PyErr) f,
    PathArg.allow_fd p = true ->
    path_converter LONG_MAX conv (Some (PyInstance n (Some (Err e)) f)) p
    = ([EvAsLong n], Err e).
Proof.
  intros LONG_MAX conv p n e f Ha.
  rewrite path_converter_index by exact Ha.
  unfold fd_converter. rewrite bind_tell.
  unfold PyLong_AsLongAndOverflow. rewrite bind_lift_err. reflexivity.
Qed.

Lemma index_failure_propagates_witness :
  let e := PyErr_String (PyUser_Type "Closed") "handle is closed" in
  PathArg.allow_fd (zero_path_arg true) = true
  /\ path_converter LP64_LONG_MAX ascii_FSConverter
       (Some (PyInstance "Handle" (Some (Err e))
                (Some (Ok (PyBytes (bytes_of_string "/mnt/test"))))))
       (zero_path_arg true)
     = ([EvAsLong "Handle"], Err e).
Proof.
  split; [reflexivity|].
  apply (@index_failure_propagates LP64_LONG_MAX ascii_FSConverter
           (zero_path_arg true) "Handle").
  reflexivity.
Defined.

(** X3: when the text-to-bytes conversion of a textual path fails, resolution
    ends with the converter's error unchanged, and the terminator scan is not
    reached; the same holds for text that the [__fspath__] hook produced. *)
Theorem conversion_failure_propagates :
  forall LONG_MAX conv (p : path_arg) (u : unicode) (e : PyErr),
    conv (PyUnicode u) = Err e ->
    path_converter LONG_MAX conv (Some (PyUnicode u)) p
    = ([EvFSConverter], Err e)
    /\ (forall n i,
          PathArg.allow_fd p
          && PyIndex_Check (PyInstance n i (Some (Ok (PyUnicode u)))) = false ->
          path_converter LONG_MAX conv
            (Some (PyInstance n i (Some (Ok (PyUnicode u))))) p
          = ([EvFspath n; EvFSConverter], Err e)).
Proof.
  intros LONG_MAX conv p u e H.
  assert (D : path_converter LONG_MAX conv (Some (PyUnicode u)) p
              = ([EvFSConverter], Err e)).
  { rewrite path_converter_unicode by reflexivity. rewrite H. reflexivity. }
  split; [exact D|].
  intros n i Hi. rewrite path_converter_hook by exact Hi.
  cbn [PyBytes_Check PyUnicode_Check orb]. rewrite D. reflexivity.
Qed.

Lemma conversion_failure_propagates_witness :
  let u := [47; 233]%N in
  let e := PyErr_String PyExc_UnicodeEncodeError
             "'ascii' codec can't encode character" in
  ascii_FSConverter (PyUnicode u) = Err e
  /\ path_converter LP64_LONG_MAX ascii_FSConverter (Some (PyUnicode u))
       (zero_path_arg true)
     = ([EvFSConverter], Err e)
  /\ (forall n i,
        PathArg.allow_fd (zero_path_arg true)
        && PyIndex_Check (PyInstance n i (Some (Ok (PyUnicode u)))) = false ->
        path_converter LP64_LONG_MAX ascii_FSConverter
          (Some (PyInstance n i (Some (Ok (PyUnicode u))))) (zero_path_arg true)
        = ([EvFspath n; EvFSConverter], Err e)).
Proof.
  split; [reflexivity|].
  apply (@conversion_failure_propagates LP64_LONG_MAX ascii_FSConverter
           (zero_path_arg true) [47; 233]%N).
  reflexivity.
Defined.

(** X4: when the [__fspath__] hook is called and gives a value that is
    neither text nor bytes, resolution fails with the TypeError that names
    the type of the hook's product; the hook is called once, the product's
    own hooks are not used, and an integer product is not taken as a
    descriptor even when descriptors are allowed. *)
Theorem hook_product_not_a_path :
  forall LONG_MAX conv (p : path_arg) n i (o' : PyObject),
    PathArg.allow_fd p && PyIndex_Check (PyInstance n i (Some (Ok o'))) = false ->
    PyBytes_Check o' || PyUnicode_Check o' = false ->
    path_converter LONG_MAX conv (Some (PyInstance n i (Some (Ok o')))) p
    = ([EvFspath n],
       Err (PyErr_String PyExc_TypeError
              ("expected " ++ accepted_shapes (PathArg.allow_fd p) ++ ", not "
                 ++ Py_TYPE_tp_name o')%string)).
Proof.
  intros LONG_MAX conv p n i o' Hi Ho.
  rewrite path_converter_hook by exact Hi. now rewrite Ho.
Qed.

Lemma hook_product_not_a_path_witness :
  PathArg.allow_fd (zero_path_arg true)
  && PyIndex_Check (PyInstance "Wrapper" None (Some (Ok (PyLong 3)))) = false
  /\ PyBytes_Check (PyLong 3) || PyUnicode_Check (PyLong 3) = false
  /\ path_converter LP64_LONG_MAX ascii_FSConverter
       (Some (PyInstance "Wrapper" None (Some (Ok (PyLong 3)))))
       (zero_path_arg true)
     = ([EvFspath "Wrapper"],
        Err (PyErr_String PyExc_TypeError
               "expected string, bytes, os.PathLike, or integer, not int")).
Proof.
  split; [reflexivity|]. split; [reflexivity|].
  apply (@hook_product_not_a_path LP64_LONG_MAX ascii_FSConverter
           (zero_path_arg true) "Wrapper" None (PyLong 3)); reflexivity.
Defined.

(** ** What a successful resolution leaves in the handle *)

Lemma fd_check_cases (tmp ov : Z) :
  let check :=
      (if (ov >? 0) || (tmp >? INT_MAX) then
         PyErr_SetString PyExc_OverflowError "fd is greater than maximum"
       else if (ov <? 0) || (tmp <? 0) then
         PyErr_SetString PyExc_ValueError "fd is negative"
       else ret (int_of_long tmp)) : M Z in
  check = ([], Err (PyErr_String PyExc_OverflowError "fd is greater than maximum"))
  \/ check = ([], Err (PyErr_String PyExc_ValueError "fd is negative"))
  \/ (check = ([], Ok tmp) /\ ov = 0 /\ 0 <= tmp <= INT_MAX).
Proof.
  cbv zeta.
  destruct (Z.gtb_spec ov 0); [left; reflexivity|].
  destruct (Z.gtb_spec tmp INT_MAX); [left; reflexivity|].
  destruct (Z.ltb_spec ov 0); [right; left; reflexivity|].
  destruct (Z.ltb_spec tmp 0); [right; left; reflexivity|].
  right; right. cbn [orb]. unfold ret.
  rewrite int_of_long_id by (unfold INT_MIN; lia).
  repeat split; lia.
Qed.

Lemma long_and_overflow_exact LONG_MAX (v tmp : Z) :
  long_and_overflow LONG_MAX v = (tmp, 0) -> tmp = v.
Proof.
  destruct (long_and_overflow_cases LONG_MAX v) as [[_ E]|[(_ & _ & E)|[_ E]]];
    rewrite E; intro H; inversion H; reflexivity.
Qed.

Lemma fd_of_integer LONG_MAX (n : string) (v : Z) :
  let m := (tell (EvAsLong n) ;;;
            r <- ret (long_and_overflow LONG_MAX v) ;;
            (let '(tmp, overflow) := r in
             if (overflow >? 0) || (tmp >? INT_MAX) then
               PyErr_SetString PyExc_OverflowError "fd is greater than maximum"
             else if (overflow <? 0) || (tmp <? 0) then
               PyErr_SetString PyExc_ValueError "fd is negative"
             else ret (int_of_long tmp))) : M Z in
  m = ([EvAsLong n], Err (PyErr_String PyExc_OverflowError "fd is greater than maximum"))
  \/ m = ([EvAsLong n], Err (PyErr_String PyExc_ValueError "fd is negative"))
  \/ (m = ([EvAsLong n], Ok v) /\ 0 <= v <= INT_MAX).
Proof.
  cbv zeta. rewrite bind_tell, bind_ret_l.
  destruct (long_and_overflow LONG_MAX v) as [tmp ov] eqn:E.
  destruct (fd_check_cases tmp ov) as [C|[C|(C & Hov & R)]]; cbv zeta in C;
    rewrite C.
  - left. reflexivity.
  - right; left. reflexivity.
  - right; right. subst ov. apply long_and_overflow_exact in E. subst tmp.
    split; [reflexivity | exact R].
Qed.

Lemma fd_converter_cases LONG_MAX (o : PyObject) :
  let m := fd_converter LONG_MAX o in
  let t := [EvAsLong (Py_TYPE_tp_name o)] in
  m = (t, Err (PyErr_String PyExc_OverflowError "fd is greater than maximum"))
  \/ m = (t, Err (PyErr_String PyExc_ValueError "fd is negative"))
  \/ (exists v, m = (t, Ok v) /\ integer_value o = Some (Ok v)
                /\ 0 <= v <= INT_MAX)
  \/ (exists e, m = (t, Err e) /\ integer_value o = Some (Err e))
  \/ (PyIndex_Check o = false).
Proof.
  cbv zeta. unfold fd_converter.
  destruct o as [v|b|u|n [[v|e]|] f|n b [[v|e]|] f|n u [[v|e]|] f];
    cbn [Py_TYPE_tp_name integer_value PyIndex_Check];
    try (right; right; right; right; reflexivity);
    unfold PyLong_AsLongAndOverflow;
    try (rewrite bind_tell, bind_lift_err;
         right; right; right; left; exists e; split; reflexivity);
    rewrite ?bind_lift_ok;
    match goal with
    | |- context [EvAsLong ?n] =>
      destruct (fd_of_integer LONG_MAX n v) as [C|[C|[C R]]]; cbv zeta in C;
      [ left; exact C
      | right; left; exact C
      | right; right; left; exists v;
        split; [exact C | split; [reflexivity | exact R]] ]
    end.
Qed.

Lemma direct_path_outcome LONG_MAX conv (p : path_arg) (o : PyObject) :
  PyBytes_Check o || PyUnicode_Check o = true ->
  let m := path_converter LONG_MAX conv (Some o) p in
  trace m = (if PyUnicode_Check o then [EvFSConverter] else [])
  /\ ((exists b, path_bytes conv o = Some b /\ In x00 b /\
                 result m = Err (PyErr_String PyExc_TypeError
                                   "path has embedded nul character"))
      \/ (exists b, path_bytes conv o = Some b /\ ~ In x00 b /\
                    result m =
                    Ok (Py_CLEANUP_SUPPORTED,
                        PathArg.make (PathArg.allow_fd p) (Some b) (-1)
                          (Z.of_nat (List.length b)) (Some o)
                          (if PyBytes_Check o then None else Some (PyBytes b))))
      \/ (exists e, PyUnicode_Check o = true /\ conv o = Err e /\
                    result m = Err e)).
Proof.
  intro D. cbv zeta. split; [now apply direct_trace|].
  destruct (PyUnicode_Check o) eqn:U.
  - assert (B : PyBytes_Check o = false)
      by (destruct o; try discriminate U; reflexivity).
    assert (P : path_bytes conv o
                = match conv o with Ok b => Some b | Err _ => None end)
      by (destruct o; try discriminate U; reflexivity).
    rewrite (path_converter_unicode LONG_MAX conv p o U), P, B.
    destruct (conv o) as [b|e].
    + destruct (finish_path_cases p o (PyBytes b) false) as [[Hn E]|[Hn E]];
        rewrite E; [left | right; left]; eauto.
    + right; right. eauto.
  - rewrite orb_false_r in D.
    assert (P : path_bytes conv o = Some (PyBytes_AS_STRING o))
      by (destruct o; try discriminate D; reflexivity).
    rewrite (path_converter_bytes LONG_MAX conv p o D), P, D.
    destruct (finish_path_cases p o o true) as [[Hn E]|[Hn E]];
      rewrite E; [left | right; left]; eauto.
Qed.

Lemma path_converter_route (p : path_arg) (o : PyObject) :
  accepted_shape (PathArg.allow_fd p) o = false
  \/ PyBytes_Check o || PyUnicode_Check o = true
  \/ (PathArg.allow_fd p = true /\ PyIndex_Check o = true
      /\ ((exists v, o = PyLong v) \/ (exists n i f, o = PyInstance n (Some i) f)))
  \/ (exists n i r, o = PyInstance n i (Some r)
                    /\ PathArg.allow_fd p && PyIndex_Check o = false).
Proof.
  destruct o as [v|b|u|n i f|n b i f|n u i f];
    try (right; left; reflexivity).
  - destruct (PathArg.allow_fd p) eqn:Ha; [|left; reflexivity].
    right; right; left. eauto 6.
  - destruct (PathArg.allow_fd p && PyIndex_Check (PyInstance n i f)) eqn:E.
    + apply andb_prop in E. destruct E as [Ha Hi].
      destruct i as [i|]; [|discriminate Hi].
      right; right; left. eauto 8.
    + destruct f as [r|].
      * right; right; right. eauto.
      * left. unfold accepted_shape. rewrite E. reflexivity.
Qed.

Lemma descriptor_route LONG_MAX conv (p : path_arg) (o : PyObject) :
  PathArg.allow_fd p = true ->
  (exists v, o = PyLong v) \/ (exists n i f, o = PyInstance n (Some i) f) ->
  path_converter LONG_MAX conv (Some o) p =
  (fd <- fd_converter LONG_MAX o ;;
   ret (Py_CLEANUP_SUPPORTED, PathArg.make true None fd 0 (Some o) None)).
Proof.
  intros Ha [[v ->]|(n & i & f & ->)].
  - now apply path_converter_long_allowed.
  - now apply path_converter_index.
Qed.

(** Every way a resolution can succeed, with the handle it leaves. *)
Lemma success_cases LONG_MAX conv (p : path_arg) (o : PyObject) rc p' :
  result (path_converter LONG_MAX conv (Some o) p) = Ok (rc, p') ->
  rc = Py_CLEANUP_SUPPORTED /\
  ((PathArg.allow_fd p = true /\
    exists v, integer_value o = Some (Ok v) /\ 0 <= v <= INT_MAX /\
              p' = PathArg.make true None v 0 (Some o) None)
   \/ (exists src b,
          (src = o \/ _PyObject_LookupSpecial___fspath__ o = Some (Ok src)) /\
          path_bytes conv src = Some b /\ ~ In x00 b /\
          p' = PathArg.make (PathArg.allow_fd p) (Some b) (-1)
                 (Z.of_nat (List.length b)) (Some src)
                 (if PyBytes_Check src then None else Some (PyBytes b)))).
Proof.
  intro H.
  assert (D : forall src,
             PyBytes_Check src || PyUnicode_Check src = true ->
             result (path_converter LONG_MAX conv (Some src) p) = Ok (rc, p') ->
             rc = Py_CLEANUP_SUPPORTED /\
             exists b, path_bytes conv src = Some b /\ ~ In x00 b /\
               p' = PathArg.make (PathArg.allow_fd p) (Some b) (-1)
                      (Z.of_nat (List.length b)) (Some src)
                      (if PyBytes_Check src then None else Some (PyBytes b))).
  { intros src Hs Hr.
    destruct (direct_path_outcome LONG_MAX conv p src Hs)
      as (_ & [(b & _ & _ & E)|[(b & Hb & Hn & E)|(e & _ & _ & E)]]);
      rewrite E in Hr; try discriminate Hr.
    injection Hr as <- <-. eauto. }
  destruct (path_converter_route p o) as [U|[S|[(Ha & Hi & Ho)|(n & i & r & -> & E)]]].
  - rewrite path_converter_unsupported in H by exact U. discriminate H.
  - destruct (D o S H) as (-> & b & Hb & Hn & ->).
    split; [reflexivity|]. right. exists o, b. eauto.
  - rewrite (descriptor_route LONG_MAX conv p Ha Ho), result_bind in H.
    destruct (fd_converter_cases LONG_MAX o)
      as [C|[C|[(v & C & Hv & R)|[(e & C & _)|C]]]]; cbv zeta in C;
      try (rewrite C in H; discriminate H).
    + rewrite C in H. unfold result, ret in H. simpl in H.
      injection H as <- <-. split; [reflexivity|]. left. eauto 6.
    + rewrite Hi in C. discriminate C.
  - rewrite path_converter_hook in H by exact E.
    destruct r as [src|e]; [|discriminate H].
    destruct (PyBytes_Check src || PyUnicode_Check src) eqn:S; [|discriminate H].
    unfold result in H. simpl in H.
    destruct (D src S H) as (-> & b & Hb & Hn & ->).
    split; [reflexivity|]. right. exists src, b. eauto.
Qed.

Lemma trace_cases LONG_MAX conv (p : path_arg) (o : PyObject) :
  let t := trace (path_converter LONG_MAX conv (Some o) p) in
  let n := Py_TYPE_tp_name o in
  t = [] \/ t = [EvFSConverter]
  \/ (t = [EvAsLong n] /\ PathArg.allow_fd p = true)
  \/ t = [EvFspath n] \/ t = [EvFspath n; EvFSConverter].
Proof.
  cbv zeta.
  assert (D : forall src,
             PyBytes_Check src || PyUnicode_Check src = true ->
             trace (path_converter LONG_MAX conv (Some src) p) = []
             \/ trace (path_converter LONG_MAX conv (Some src) p) = [EvFSConverter]).
  { intros src Hs.
    destruct (direct_path_outcome LONG_MAX conv p src Hs) as [T _].
    cbv zeta in T. rewrite T. destruct (PyUnicode_Check src); auto. }
  destruct (path_converter_route p o) as [U|[S|[(Ha & Hi & Ho)|(n & i & r & -> & E)]]].
  - rewrite path_converter_unsupported by exact U. now left.
  - destruct (D o S) as [T|T]; rewrite T; auto.
  - rewrite (descriptor_route LONG_MAX conv p Ha Ho), trace_bind,
      fd_converter_trace.
    right; right; left. split; [|exact Ha].
    destruct (result (fd_converter LONG_MAX o)); reflexivity.
  - rewrite path_converter_hook by exact E. cbn [Py_TYPE_tp_name].
    destruct r as [src|e]; [|now (right; right; right; left)].
    destruct (PyBytes_Check src || PyUnicode_Check src) eqn:S;
      [|now (right; right; right; left)].
    unfold trace at 1 3. simpl fst.
    destruct (D src S) as [T|T]; rewrite T; auto 6.
Qed.

(** X5: after a successful resolution, the cleanup call (a NULL object)
    succeeds with return value 1 and without any host call; it releases both
    object references and leaves the target as it was, so the handle is
    still of exactly one variant; a second cleanup changes nothing. *)
Theorem cleanup_after_success :
  forall LONG_MAX conv (p : path_arg) (o : PyObject) rc (p' : path_arg),
    result (path_converter LONG_MAX conv (Some o) p) = Ok (rc, p') ->
    exists q,
      path_converter LONG_MAX conv None p' = ([], Ok (1, q))
      /\ PathArg.object q = None /\ PathArg.cleanup q = None
      /\ PathArg.path q = PathArg.path p'
      /\ PathArg.fd q = PathArg.fd p'
      /\ PathArg.length q = PathArg.length p'
      /\ PathArg.allow_fd q = PathArg.allow_fd p'
      /\ path_converter LONG_MAX conv None q = ([], Ok (1, q))
      /\ ((0 <= PathArg.fd q /\ PathArg.path q = None)
          \/ (PathArg.fd q = -1 /\ PathArg.path q <> None)).
Proof.
  intros LONG_MAX conv p o rc p' H.
  exists (path_cleanup p'). do 8 (split; [reflexivity|]).
  destruct (success_cases LONG_MAX conv p o H)
    as (_ & [(_ & v & _ & R & ->)|(src & b & _ & _ & _ & ->)]); simpl.
  - left. split; [lia | reflexivity].
  - right. split; [reflexivity | discriminate].
Qed.

Lemma cleanup_after_success_witness :
  let o := PyUnicode (unicode_of_string "/mnt/test") in
  let b := bytes_of_string "/mnt/test" in
  let p' := PathArg.make true (Some b) (-1) 9 (Some o) (Some (PyBytes b)) in
  let q := PathArg.make true (Some b) (-1) 9 None None in
  result (path_converter LP64_LONG_MAX ascii_FSConverter (Some o)
            (zero_path_arg true)) = Ok (Py_CLEANUP_SUPPORTED, p')
  /\ path_converter LP64_LONG_MAX ascii_FSConverter None p' = ([], Ok (1, q))
  /\ exists q',
      path_converter LP64_LONG_MAX ascii_FSConverter None p' = ([], Ok (1, q'))
      /\ PathArg.object q' = None /\ PathArg.cleanup q' = None
      /\ PathArg.path q' = PathArg.path p'
      /\ PathArg.fd q' = PathArg.fd p'
      /\ PathArg.length q' = PathArg.length p'
      /\ PathArg.allow_fd q' = PathArg.allow_fd p'
      /\ path_converter LP64_LONG_MAX ascii_FSConverter None q' = ([], Ok (1, q'))
      /\ ((0 <= PathArg.fd q' /\ PathArg.path q' = None)
          \/ (PathArg.fd q' = -1 /\ PathArg.path q' <> None)).
Proof.
  split; [reflexivity|]. split; [reflexivity|].
  apply (@cleanup_after_success LP64_LONG_MAX ascii_FSConverter
           (zero_path_arg true) (PyUnicode (unicode_of_string "/mnt/test"))
           Py_CLEANUP_SUPPORTED).
  reflexivity.
Defined.

(** X6: on success the converter returns [Py_CLEANUP_SUPPORTED], keeps
    [allow_fd], and holds a reference that keeps the path's buffer alive: the
    buffer [path] points to belongs to [object] when that is a bytes object
    ([cleanup] is then NULL), and to [cleanup] when [object] is text, be the
    object of type bytes or str or of a subclass; a descriptor handle has
    [object] set to the argument and [cleanup] NULL. *)
Theorem handle_owns_path_buffer :
  forall LONG_MAX conv (p : path_arg) (o : PyObject) rc (p' : path_arg),
    result (path_converter LONG_MAX conv (Some o) p) = Ok (rc, p') ->
    rc = Py_CLEANUP_SUPPORTED
    /\ PathArg.allow_fd p' = PathArg.allow_fd p
    /\ match PathArg.path p' with
       | Some b =>
         (PathArg.object p' = Some (PyBytes b) /\ PathArg.cleanup p' = None)
         \/ (exists u, PathArg.object p' = Some (PyUnicode u)
                       /\ PathArg.cleanup p' = Some (PyBytes b))
         \/ (exists n i f, PathArg.object p' = Some (PyBytesSub n b i f)
                           /\ PathArg.cleanup p' = None)
         \/ (exists n u i f, PathArg.object p' = Some (PyUnicodeSub n u i f)
                             /\ PathArg.cleanup p' = Some (PyBytes b))
       | None =>
         PathArg.object p' = Some o /\ PathArg.cleanup p' = None
       end.
Proof.
  intros LONG_MAX conv p o rc p' H.
  destruct (success_cases LONG_MAX conv p o H)
    as (-> & [(Ha & v & _ & R & ->)|(src & b & _ & Hb & _ & ->)]);
    (split; [reflexivity|]); simpl.
  - split; [now rewrite Ha|]. split; reflexivity.
  - split; [reflexivity|].
    destruct src as [v|b'|u|n i f|n b' i f|n u i f]; simpl in Hb;
      try discriminate Hb.
    + injection Hb as ->. left. split; reflexivity.
    + right; left. exists u. split; reflexivity.
    + injection Hb as ->. right; right; left. exists n, i, f. split; reflexivity.
    + right; right; right. exists n, u, i, f. split; reflexivity.
Qed.

Lemma handle_owns_path_buffer_witness :
  let o := PyUnicode (unicode_of_string "/mnt/test") in
  let b := bytes_of_string "/mnt/test" in
  let p' := PathArg.make false (Some b) (-1) 9 (Some o) (Some (PyBytes b)) in
  result (path_converter LP64_LONG_MAX ascii_FSConverter (Some o)
            (zero_path_arg false)) = Ok (Py_CLEANUP_SUPPORTED, p')
  /\ Py_CLEANUP_SUPPORTED = Py_CLEANUP_SUPPORTED
  /\ PathArg.allow_fd p' = PathArg.allow_fd (zero_path_arg false)
  /\ match PathArg.path p' with
     | Some b =>
       (PathArg.object p' = Some (PyBytes b) /\ PathArg.cleanup p' = None)
       \/ (exists u, PathArg.object p' = Some (PyUnicode u)
                     /\ PathArg.cleanup p' = Some (PyBytes b))
       \/ (exists n i f, PathArg.object p' = Some (PyBytesSub n b i f)
                         /\ PathArg.cleanup p' = None)
       \/ (exists n u i f, PathArg.object p' = Some (PyUnicodeSub n u i f)
                           /\ PathArg.cleanup p' = Some (PyBytes b))
     | None =>
       PathArg.object p' = Some o /\ PathArg.cleanup p' = None
     end.
Proof.
  split; [reflexivity|].
  apply (@handle_owns_path_buffer LP64_LONG_MAX ascii_FSConverter
           (zero_path_arg false) (PyUnicode (unicode_of_string "/mnt/test"))).
  reflexivity.
Defined.

(** X7: on success the [length] field is the number of bytes of the path,
    which is also what [strlen] gives on it (the C string is the whole
    bytes object); for a descriptor handle [length] is 0. *)
Theorem length_matches_path :
  forall LONG_MAX conv (p : path_arg) (o : PyObject) rc (p' : path_arg),
    result (path_converter LONG_MAX conv (Some o) p) = Ok (rc, p') ->
    match PathArg.path p' with
    | Some b => PathArg.length p' = Z.of_nat (List.length b)
                /\ PathArg.length p' = Z.of_nat (strlen b)
    | None => PathArg.length p' = 0
    end.
Proof.
  intros LONG_MAX conv p o rc p' H.
  destruct (success_cases LONG_MAX conv p o H)
    as (_ & [(_ & v & _ & _ & ->)|(src & b & _ & _ & Hn & ->)]); simpl.
  - reflexivity.
  - split; [reflexivity|]. apply strlen_full in Hn. now rewrite Hn.
Qed.

Lemma length_matches_path_witness :
  let b := bytes_of_string "/mnt" in
  let p' := PathArg.make true (Some b) (-1) 4 (Some (PyBytes b)) None in
  result (path_converter LP64_LONG_MAX ascii_FSConverter (Some (PyBytes b))
            (zero_path_arg true)) = Ok (Py_CLEANUP_SUPPORTED, p')
  /\ match PathArg.path p' with
     | Some b => PathArg.length p' = Z.of_nat (List.length b)
                 /\ PathArg.length p' = Z.of_nat (strlen b)
     | None => PathArg.length p' = 0
     end.
Proof.
  split; [reflexivity|].
  apply (@length_matches_path LP64_LONG_MAX ascii_FSConverter
           (zero_path_arg true) (PyBytes (bytes_of_string "/mnt"))
           Py_CLEANUP_SUPPORTED).
  reflexivity.
Defined.



(** X9: when descriptors are not allowed, no value is ever interpreted as an
    integer (neither [PyLong_AsLongAndOverflow] nor [__index__] is reached),
    and every success is a path handle: [fd = -1] and [path] not NULL. *)
Theorem no_descriptor_when_disallowed :
  forall LONG_MAX conv (p : path_arg) (o : PyObject),
    PathArg.allow_fd p = false ->
    no_integer_interpretation (trace (path_converter LONG_MAX conv (Some o) p))
    = true
    /\ (forall rc p',
          result (path_converter LONG_MAX conv (Some o) p) = Ok (rc, p') ->
          PathArg.fd p' = -1 /\ PathArg.path p' <> None).
Proof.
  intros LONG_MAX conv p o Ha. split.
  - destruct (trace_cases LONG_MAX conv p o) as [T|[T|[[T K]|[T|T]]]];
      cbv zeta in T; try (rewrite T; reflexivity).
    rewrite Ha in K. discriminate K.
  - intros rc p' H.
    destruct (success_cases LONG_MAX conv p o H)
      as (_ & [(K & _)|(src & b & _ & _ & _ & ->)]).
    + rewrite Ha in K. discriminate K.
    + simpl. split; [reflexivity | discriminate].
Qed.

Lemma no_descriptor_when_disallowed_witness :
  let o := PyInstance "FdPath" (Some (Ok 3))
             (Some (Ok (PyBytes (bytes_of_string "/mnt/test")))) in
  let m := path_converter LP64_LONG_MAX ascii_FSConverter (Some o)
             (zero_path_arg false) in
  PathArg.allow_fd (zero_path_arg false) = false
  /\ m = ([EvFspath "FdPath"],
          Ok (Py_CLEANUP_SUPPORTED,
              PathArg.make false (Some (bytes_of_string "/mnt/test")) (-1) 9
                (Some (PyBytes (bytes_of_string "/mnt/test"))) None))
  /\ no_integer_interpretation (trace m) = true
  /\ (forall rc p',
        result m = Ok (rc, p') ->
        PathArg.fd p' = -1 /\ PathArg.path p' <> None).
Proof.
  split; [reflexivity|]. split; [reflexivity|].
  apply (@no_descriptor_when_disallowed LP64_LONG_MAX ascii_FSConverter
           (zero_path_arg false)).
  reflexivity.
Defined.

(** X10: the converter never contacts the filesystem: for every argument,
    the cleanup call included, and every handle, its events hold no control
    request. *)
Theorem converter_never_contacts_system :
  forall LONG_MAX conv (o : option PyObject) (p : path_arg),
    no_system_event (trace (path_converter LONG_MAX conv o p)) = true.
Proof.
  intros LONG_MAX conv [o|] p; [|reflexivity].
  destruct (trace_cases LONG_MAX conv p o) as [T|[T|[[T _]|[T|T]]]];
    cbv zeta in T; rewrite T; reflexivity.
Qed.

(** X11: a resolution makes one of five sequences of host calls: none; the
    text conversion alone; one integer interpretation alone; one call of the
    [__fspath__] hook alone; or that call followed by the text conversion.
    So the hook is called at most once, and a resolution that interprets the
    value as an integer neither calls the hook nor converts text. *)
Theorem host_call_sequences :
  forall LONG_MAX conv (p : path_arg) (o : PyObject),
    In (trace (path_converter LONG_MAX conv (Some o) p))
       (call_sequences (Py_TYPE_tp_name o)).
Proof.
  intros LONG_MAX conv p o. unfold call_sequences.
  destruct (trace_cases LONG_MAX conv p o) as [T|[T|[[T _]|[T|T]]]];
    cbv zeta in T; rewrite T; simpl; auto 8.
Qed.

(** X12: every failure of a resolution is one of: the TypeError naming the
    accepted shapes and the type of the argument or of the hook's product;
    the TypeError for an embedded nul; the OverflowError or the ValueError of
    the descriptor range; or an error raised by the host, handed on
    unchanged: by [__index__], by the [__fspath__] hook, or by the text
    conversion of the argument or of the hook's product. *)
Theorem failure_kinds :
  forall LONG_MAX conv (p : path_arg) (o : PyObject) (e : PyErr),
    result (path_converter LONG_MAX conv (Some o) p) = Err e ->
    (exists o', (o' = o \/ _PyObject_LookupSpecial___fspath__ o = Some (Ok o'))
                /\ e = PyErr_String PyExc_TypeError
                         ("expected " ++ accepted_shapes (PathArg.allow_fd p)
                            ++ ", not " ++ Py_TYPE_tp_name o')%string)
    \/ e = PyErr_String PyExc_TypeError "path has embedded nul character"
    \/ e = PyErr_String PyExc_OverflowError "fd is greater than maximum"
    \/ e = PyErr_String PyExc_ValueError "fd is negative"
    \/ integer_value o = Some (Err e)
    \/ _PyObject_LookupSpecial___fspath__ o = Some (Err e)
    \/ (exists src,
           (src = o \/ _PyObject_LookupSpecial___fspath__ o = Some (Ok src))
           /\ conv src = Err e).
Proof.
  intros LONG_MAX conv p o e H.
  assert (D : forall src,
             PyBytes_Check src || PyUnicode_Check src = true ->
             result (path_converter LONG_MAX conv (Some src) p) = Err e ->
             e = PyErr_String PyExc_TypeError "path has embedded nul character"
             \/ conv src = Err e).
  { intros src Hs Hr.
    destruct (direct_path_outcome LONG_MAX conv p src Hs)
      as (_ & [(b & _ & _ & E)|[(b & _ & _ & E)|(e' & _ & Hc & E)]]);
      rewrite E in Hr; try discriminate Hr; injection Hr as <-; auto. }
  destruct (path_converter_route p o) as [U|[S|[(Ha & Hi & Ho)|(n & i & r & -> & E)]]].
  - rewrite path_converter_unsupported in H by exact U.
    injection H as <-. left. exists o. auto.
  - destruct (D o S H) as [->|K]; [auto|].
    do 6 right. exists o. auto.
  - rewrite (descriptor_route LONG_MAX conv p Ha Ho), result_bind in H.
    destruct (fd_converter_cases LONG_MAX o)
      as [C|[C|[(v & C & _)|[(e' & C & Hv)|C]]]]; cbv zeta in C.
    + rewrite C in H. injection H as <-. auto.
    + rewrite C in H. injection H as <-. auto.
    + rewrite C in H. discriminate H.
    + rewrite C in H. injection H as <-. auto 6.
    + rewrite Hi in C. discriminate C.
  - rewrite path_converter_hook in H by exact E. cbn [_PyObject_LookupSpecial___fspath__].
    destruct r as [src|e'].
    + destruct (PyBytes_Check src || PyUnicode_Check src) eqn:S.
      * unfold result in H. simpl in H.
        destruct (D src S H) as [->|K]; [auto|].
        do 6 right. exists src. auto.
      * injection H as <-. left. exists src. auto.
    + injection H as <-. auto 7.
Qed.

Lemma failure_kinds_witness :
  let o := PyInstance "Wrapper" None (Some (Ok (PyLong 3))) in
  let e := PyErr_String PyExc_TypeError
             "expected string, bytes, os.PathLike, or integer, not int" in
  result (path_converter LP64_LONG_MAX ascii_FSConverter (Some o)
            (zero_path_arg true)) = Err e
  /\ ((exists o', (o' = o \/ _PyObject_LookupSpecial___fspath__ o = Some (Ok o'))
                  /\ e = PyErr_String PyExc_TypeError
                           ("expected " ++ accepted_shapes true
                              ++ ", not " ++ Py_TYPE_tp_name o')%string)
      \/ e = PyErr_String PyExc_TypeError "path has embedded nul character"
      \/ e = PyErr_String PyExc_OverflowError "fd is greater than maximum"
      \/ e = PyErr_String PyExc_ValueError "fd is negative"
      \/ integer_value o = Some (Err e)
      \/ _PyObject_LookupSpecial___fspath__ o = Some (Err e)
      \/ (exists src,
             (src = o \/ _PyObject_LookupSpecial___fspath__ o = Some (Ok src))
             /\ ascii_FSConverter src = Err e)).
Proof.
  split; [reflexivity|].
  apply (@failure_kinds LP64_LONG_MAX ascii_FSConverter (zero_path_arg true)
           (PyInstance "Wrapper" None (Some (Ok (PyLong 3))))).
  reflexivity.
Defined.

(** ** The module initialiser *)

Lemma dict_get_set (d : list (string * ModuleAttr)) (k k' : string)
      (v : ModuleAttr) :
  dict_get (dict_set d k v) k'
  = if String.eqb k k' then Some v else dict_get d k'.
Proof.
  induction d as [|[k0 v0] d IH]; simpl.
  - destruct (String.eqb k k'); reflexivity.
  - destruct (String.eqb k0 k) eqn:E0; simpl.
    + apply String.eqb_eq in E0. subst k0.
      destruct (String.eqb k k'); reflexivity.
    + rewrite IH.
      destruct (String.eqb k0 k') eqn:E1, (String.eqb k k') eqn:E2;
        try reflexivity.
      apply String.eqb_eq in E1, E2. subst k0 k.
      rewrite String.eqb_refl in E0. discriminate E0.
Qed.

(** X13: the initialiser returns NULL exactly when readying BtrfsUtilError
    (with its base already set to OSError) fails, or readying QgroupInherit
    (with [tp_new] already set to [PyType_GenericNew]) fails, or the module
    cannot be created; nothing else makes it fail, whatever
    [PyModule_AddObject] returns and whatever the generated constants do. *)
Theorem PyInit_btrfsutil_fails_iff :
  forall ready_ok create_ok add_ok consts (s : Statics),
    let e := {| tp_name := tp_name (BtrfsUtilError_type_object s);
                tp_base := Some PyExc_OSError;
                tp_new := tp_new (BtrfsUtilError_type_object s) |} in
    let q := {| tp_name := tp_name (QgroupInherit_type_object s);
                tp_base := tp_base (QgroupInherit_type_object s);
                tp_new := Some PyType_GenericNew |} in
    PyInit_btrfsutil ready_ok create_ok add_ok consts s = None
    <-> (ready_ok e = false \/ ready_ok q = false \/ create_ok = false).
Proof.
  intros ready_ok create_ok add_ok consts s e q.
  unfold PyInit_btrfsutil, PyType_Ready, PyModule_Create. fold e q.
  destruct (ready_ok e), (ready_ok q), create_ok; split; intro H;
    try reflexivity; try discriminate H; auto;
    destruct H as [H|[H|H]]; discriminate H.
Qed.

(** X14: when the initialiser succeeds, the module it returns is the
    generated constants added to a module built from [btrfsutilmodule] in
    which BtrfsUtilError and QgroupInherit are bound to the two types, each
    exactly when its [PyModule_AddObject] succeeded: the value that call
    returns is not looked at, so a failed call leaves the name unbound and
    the initialiser succeeds all the same.  Every other name is bound as
    [PyModule_Create] left it, the three functions of the method table
    among them.  QgroupInherit has [PyType_GenericNew] as [tp_new] and
    keeps its base (the base object type when none was set); BtrfsUtilError
    has OSError as base whatever base it had, and keeps its name and
    [tp_new]. *)
Theorem PyInit_btrfsutil_result :
  forall ready_ok create_ok add_ok consts (s : Statics) (m : PyModule)
         (s' : Statics),
    PyInit_btrfsutil ready_ok create_ok add_ok consts s = Some (m, s') ->
    (exists m0,
        m = consts m0
        /\ md_def m0 = btrfsutilmodule
        /\ dict_get (md_dict m0) "BtrfsUtilError"
           = (if add_ok "BtrfsUtilError"%string
              then Some (AttrType BtrfsUtilError_type) else None)
        /\ dict_get (md_dict m0) "QgroupInherit"
           = (if add_ok "QgroupInherit"%string
              then Some (AttrType QgroupInherit_type) else None)
        /\ (forall k : string,
               k <> "BtrfsUtilError"%string -> k <> "QgroupInherit"%string ->
               dict_get (md_dict m0) k
               = dict_get (module_new_dict btrfsutilmodule) k)
        /\ Forall (fun d => dict_get (md_dict m0) (ml_name d)
                            = Some (AttrFunction d)) btrfsutil_methods)
    /\ tp_new (QgroupInherit_type_object s') = Some PyType_GenericNew
    /\ tp_base (QgroupInherit_type_object s')
       = Some (match tp_base (QgroupInherit_type_object s) with
               | Some b => b
               | None => PyBaseObject_Type
               end)
    /\ tp_name (QgroupInherit_type_object s')
       = tp_name (QgroupInherit_type_object s)
    /\ tp_base (BtrfsUtilError_type_object s') = Some PyExc_OSError
    /\ tp_name (BtrfsUtilError_type_object s')
       = tp_name (BtrfsUtilError_type_object s)
    /\ tp_new (BtrfsUtilError_type_object s')
       = tp_new (BtrfsUtilError_type_object s).
Proof.
  intros ready_ok create_ok add_ok consts s m s' H.
  unfold PyInit_btrfsutil, PyType_Ready, PyModule_Create in H.
  destruct (ready_ok _); [|discriminate H].
  destruct (ready_ok _); [|discriminate H].
  destruct create_ok; [|discriminate H].
  injection H as <- <-.
  split.
  { eexists. split; [reflexivity|].
    split; [destruct (add_ok "BtrfsUtilError"%string),
                     (add_ok "QgroupInherit"%string); reflexivity|].
    split; [destruct (add_ok "BtrfsUtilError"%string),
                     (add_ok "QgroupInherit"%string); reflexivity|].
    split; [destruct (add_ok "BtrfsUtilError"%string),
                     (add_ok "QgroupInherit"%string); reflexivity|].
    split.
    - intros k K1 K2.
      assert (N1 : String.eqb "BtrfsUtilError" k = false)
        by (apply String.eqb_neq; congruence).
      assert (N2 : String.eqb "QgroupInherit" k = false)
        by (apply String.eqb_neq; congruence).
      unfold PyModule_AddObject.
      destruct (add_ok "BtrfsUtilError"%string),
               (add_ok "QgroupInherit"%string);
        cbn [snd md_dict]; rewrite ?dict_get_set, ?N1, ?N2; reflexivity.
    - destruct (add_ok "BtrfsUtilError"%string),
               (add_ok "QgroupInherit"%string);
        repeat constructor. }
  split; [reflexivity|].
  split; [|repeat split].
  cbn [QgroupInherit_type_object tp_base].
  destruct (tp_base (QgroupInherit_type_object s)); reflexivity.
Qed.

Lemma PyInit_btrfsutil_result_witness :
  exists m s',
    PyInit_btrfsutil (fun _ => true) true
      (fun name => negb (String.eqb name "QgroupInherit")) (fun m => m)
      initial_statics
    = Some (m, s')
    /\ dict_get (md_dict m) "BtrfsUtilError"
       = Some (AttrType BtrfsUtilError_type)
    /\ dict_get (md_dict m) "QgroupInherit" = None
    /\ tp_new (QgroupInherit_type_object s') = Some PyType_GenericNew
    /\ tp_base (QgroupInherit_type_object s') = Some PyBaseObject_Type
    /\ tp_base (BtrfsUtilError_type_object s') = Some PyExc_OSError.
Proof.
  eexists. eexists. split; [reflexivity|].
  pose proof (@PyInit_btrfsutil_result (fun _ => true) true
                (fun name => negb (String.eqb name "QgroupInherit"))
                (fun m => m) initial_statics _ _ eq_refl)
    as (_ & B & C & _ & D & _).
  split; [reflexivity|]. split; [reflexivity|].
  split; [exact B|]. split; [exact C | exact D].
Defined.
